(** * aeye_typer: the HUD data-collection session and the key identifier

    A shallow embedding of [lib/py/app.py] (the helpers [key_to_id] and
    [warn]) and of [lib/py/hud_learn.py] (the classes [HUDLearn],
    [_HUDDataCollect], [_HUDTrain] and [_HUDInfer]), followed by the
    properties of the session lifecycle, of the mode dispatch, of the
    key-press handler and of the log path.

    Python values are modelled by a small universe of dynamically typed
    values with attribute bags; exceptions by a result type; the calls the
    code makes on its collaborators (the gaze source, the keyboard listener,
    the file system, standard output) by a trace of effects kept in an
    explicit world that is threaded through every operation. *)

From Stdlib Require Import ZArith NArith List String Ascii Bool Lia.
From Stdlib Require Import DecimalString.
Import ListNotations.

Set Implicit Arguments.
Open Scope string_scope.
Open Scope list_scope.

(* ================================================================= *)
(** ** Python values, exceptions and results *)

Module Py.

(** A Python [str] is a sequence of Unicode code points. *)
Definition codepoint := N.
Definition pystr := list codepoint.

(** A string literal of the source, as code points. *)
Fixpoint lit (s : string) : pystr :=
  match s with
  | EmptyString => []
  | String a rest => N_of_ascii a :: lit rest
  end.

Fixpoint pystr_eqb (a b : pystr) : bool :=
  match a, b with
  | [], [] => true
  | x :: a', y :: b' => N.eqb x y && pystr_eqb a' b'
  | _, _ => false
  end.

(** The exceptions the modelled code can raise or let through. *)
Inductive Exc : Type :=
| AttributeError
| TypeError
| KeyError (key : pystr)
| ValueError (msg : pystr)
| NotImplementedError
| RuntimeError (msg : pystr)
| FileExistsError (path : pystr).

Inductive Result (A : Type) : Type :=
| Ok (a : A)
| Raise (e : Exc).

Arguments Ok {A} a.
Arguments Raise {A} e.

Definition rbind {A B} (r : Result A) (k : A -> Result B) : Result B :=
  match r with
  | Ok a => k a
  | Raise e => Raise e
  end.

Definition is_AttributeError (e : Exc) : bool :=
  match e with
  | AttributeError => true
  | _ => false
  end.

(** [try: body  except AttributeError: handler]: only an [AttributeError]
    is caught, any other exception propagates. *)
Definition try_except_AttributeError {A}
    (body : Result A) (handler : Result A) : Result A :=
  match body with
  | Ok a => Ok a
  | Raise e => if is_AttributeError e then handler else Raise e
  end.

(** Values: [None], an [int], a [str], or an object carrying data
    attributes (a pynput [KeyCode] or [Key] is such an object). *)
#[warnings="-register-all"]
Inductive PyVal : Type :=
| PyNone
| PyInt (z : Z)
| PyStr (s : pystr)
| PyObj (attrs : list (string * PyVal)).

Fixpoint assoc {V} (name : string) (l : list (string * V)) : option V :=
  match l with
  | [] => None
  | (k, v) :: rest => if String.eqb k name then Some v else assoc name rest
  end.

(** [v.name] for a data attribute: [None], ints and strings have none of
    the attributes the code reads ([char], [value], [vk]). *)
Definition getattr (v : PyVal) (name : string) : Result PyVal :=
  match v with
  | PyObj attrs =>
      match assoc name attrs with
      | Some x => Ok x
      | None => Raise AttributeError
      end
  | _ => Raise AttributeError
  end.


(** [ord(v)]: the code point of a one-character string, [TypeError] for
    any other argument. *)
Definition ord (v : PyVal) : Result PyVal :=
  match v with
  | PyStr [c] => Ok (PyInt (Z.of_N c))
  | _ => Raise TypeError
  end.

Section Lower.

(** Python's [str.lower], a built-in; the development is parametric in
    it. *)
Variable str_lower : pystr -> pystr.

(** [v.lower()]: a string has the method; [None] and ints do not; calling
    a data attribute named [lower] of an object is a [TypeError]. *)
Definition call_lower (v : PyVal) : Result PyVal :=
  match v with
  | PyStr s => Ok (PyStr (str_lower s))
  | PyObj attrs =>
      match assoc "lower" attrs with
      | Some _ => Raise TypeError
      | None => Raise AttributeError
      end
  | _ => Raise AttributeError
  end.

End Lower.

(** The lowercase mapping on Basic Latin, and on U+0130, the one code
    point whose lowercase is two code points (U+0069 U+0307); every other
    code point is left as it is.  It instantiates [str_lower] in the
    examples. *)
Definition lower_cp (c : codepoint) : pystr :=
  if (65 <=? c)%N && (c <=? 90)%N then [(c + 32)%N]
  else if (c =? 304)%N then [105%N; 775%N]
  else [c].

Definition lower_basic (s : pystr) : pystr := flat_map lower_cp s.

(** The truth value of a value in a condition: [None], [0] and the empty
    string are false, an object is true. *)
Definition truthy (v : PyVal) : bool :=
  match v with
  | PyNone => false
  | PyInt z => negb (Z.eqb z 0)
  | PyStr s => match s with [] => false | _ => true end
  | PyObj _ => true
  end.

(** [str(z)] for an [int]. *)
Definition str_int (z : Z) : pystr := lit (NilZero.string_of_int (Z.to_int z)).

End Py.

Import Py.

Declare Scope result_scope.
Notation "x <- r ;; k" := (rbind r (fun x => k))
  (at level 61, r at next level, right associativity) : result_scope.
Delimit Scope result_scope with res.

(* ================================================================= *)
(** ** lib/py/app.py *)

Module App.

Section KeyToId.

Variable str_lower : pystr -> pystr.

(** The body of the outer [try]: [ord(key.char.lower())]. *)
Definition char_code (key : PyVal) : Result PyVal :=
  (c <- getattr key "char" ;;
   l <- call_lower str_lower c ;;
   ord l)%res.

(** [key.value.vk]. *)
Definition value_vk (key : PyVal) : Result PyVal :=
  (v <- getattr key "value" ;; getattr v "vk")%res.

(** The outer handler: [key.value.vk], and [key.vk] when that raises
    [AttributeError]. *)
Definition vk_fallback (key : PyVal) : Result PyVal :=
  try_except_AttributeError (value_vk key) (getattr key "vk").

(** [key_to_id(key)]. *)
Definition key_to_id (key : PyVal) : Result PyVal :=
  try_except_AttributeError (char_code key) (vk_fallback key).

End KeyToId.

(** The key carries no character: the attribute [char] is absent, or it
    holds a value that has no [lower]. *)
Definition lacks_char (key : PyVal) : bool :=
  match getattr key "char" with
  | Raise _ => true
  | Ok PyNone => true
  | Ok (PyInt _) => true
  | Ok (PyStr _) => false
  | Ok (PyObj attrs) =>
      match assoc "lower" attrs with
      | Some _ => false
      | None => true
      end
  end.

(** The key carries a nested value with a [vk]. *)
Definition has_value_vk (key : PyVal) : bool :=
  match value_vk key with
  | Ok _ => true
  | Raise _ => false
  end.

(** The key has a character that [ord] refuses: a string whose lowercase
    is not one code point, or an object with a data attribute [lower]. *)
Definition char_refused (str_lower : pystr -> pystr) (key : PyVal) : Prop :=
  (exists s, getattr key "char" = Ok (PyStr s) /\
             List.length (str_lower s) <> 1) \/
  (exists attrs v, getattr key "char" = Ok (PyObj attrs) /\
                   assoc "lower" attrs = Some v).

(** [ANSII_ESC_WARNING] and [ANSII_ESC_ENDCOLOR]. *)
Definition ESC : codepoint := 27%N.
Definition ANSII_ESC_WARNING : pystr := ESC :: lit "[38;5;214m".
Definition ANSII_ESC_ENDCOLOR : pystr := ESC :: lit "[0m".

(** The text [warn(s)] prints, with the default [end]. *)
Definition warn_text (s : pystr) : pystr :=
  ANSII_ESC_WARNING ++ lit "WARN:" ++ ANSII_ESC_ENDCOLOR ++ lit " " ++ s
    ++ [10%N].

(** [ANSII_ESC_BOLD], [ANSII_ESC_OK] and [ANSII_ESC_ERROR]. *)
Definition ANSII_ESC_BOLD : pystr := ESC :: lit "[1m".
Definition ANSII_ESC_OK : pystr := ESC :: lit "[92m".
Definition ANSII_ESC_ERROR : pystr := ESC :: lit "[91m".

(** The texts [info(s, end)], [warn(s, end)], [error(s, end)] and
    [bold(s, end)] hand to [print]. *)
Definition info_line (s end_ : pystr) : pystr :=
  ANSII_ESC_OK ++ lit "INFO:" ++ ANSII_ESC_ENDCOLOR ++ lit " " ++ s ++ end_.

Definition warn_line (s end_ : pystr) : pystr :=
  ANSII_ESC_WARNING ++ lit "WARN:" ++ ANSII_ESC_ENDCOLOR ++ lit " " ++ s
    ++ end_.

Definition error_line (s end_ : pystr) : pystr :=
  ANSII_ESC_ERROR ++ lit "ERROR:" ++ ANSII_ESC_ENDCOLOR ++ lit " " ++ s
    ++ end_.

Definition bold_line (s end_ : pystr) : pystr :=
  ANSII_ESC_BOLD ++ s ++ ANSII_ESC_ENDCOLOR ++ end_.

(** The calls [seed_rand] makes on the two random generators. *)
Inductive SeedCall : Type :=
| random_seed (seed : Z)
| np_random_seed (seed : Z).

(** [np.random.seed(z)] takes a seed from [0] to [2**32 - 1] and raises
    [ValueError] on any other integer. *)
Definition NP_SEED_ERROR : Exc :=
  ValueError (lit "Seed must be between 0 and 2**32 - 1").

Definition np_random_seed_result (z : Z) : Result unit :=
  if (0 <=? z)%Z && (z <? 2 ^ 32)%Z then Ok tt else Raise NP_SEED_ERROR.

(** [seed_rand(seed)] for a seed that is [None] or an integer: when the
    seed is true as a condition, [random.seed] is called and then
    [np.random.seed]; the calls made and the outcome. *)
Definition seed_rand (seed : option Z) : list SeedCall * Result unit :=
  match seed with
  | None => ([], Ok tt)
  | Some z =>
      if truthy (PyInt z)
      then ([random_seed z; np_random_seed z], np_random_seed_result z)
      else ([], Ok tt)
  end.

End App.

(* ================================================================= *)
(** ** The world: clock, threads, file system and the trace of effects *)

Module World.

(** [datetime.now()] yields a calendar time. *)
Record datetime : Type := {
  year : Z; month : Z; day : Z;
  hour : Z; minute : Z; second : Z; microsecond : Z
}.

(** Left padding with ['0'] up to [width] characters. *)
Definition zfill (width : nat) (s : pystr) : pystr :=
  repeat 48%N (width - List.length s) ++ s.

(** [d.strftime('%Y-%m-%d-%H-%M')], for a year of four digits, as every
    year a clock gives is: the year is printed on four digits, the other
    fields on two. *)
Definition strftime_Ymd_HM (d : datetime) : pystr :=
  zfill 4 (str_int (year d)) ++ lit "-" ++
  zfill 2 (str_int (month d)) ++ lit "-" ++
  zfill 2 (str_int (day d)) ++ lit "-" ++
  zfill 2 (str_int (hour d)) ++ lit "-" ++
  zfill 2 (str_int (minute d)).

(** *** pathlib's pure POSIX paths *)

Record PurePath : Type := { root : pystr; parts : list pystr }.

Definition SEP : codepoint := 47%N.

Fixpoint split_on (sep : codepoint) (s : pystr) (cur : pystr) : list pystr :=
  match s with
  | [] => [cur]
  | c :: rest =>
      if N.eqb c sep then cur :: split_on sep rest []
      else split_on sep rest (cur ++ [c])
  end.

(** A string without a separator. *)
Definition no_sep (s : pystr) : Prop := Forall (fun c => c <> SEP) s.

(** The components of a path string: empty components and ['.'] are
    dropped. *)
Definition components (s : pystr) : list pystr :=
  filter (fun p => negb (pystr_eqb p [] || pystr_eqb p (lit ".")))
         (split_on SEP s []).

(** The root: exactly two leading slashes are kept, one or more than two
    collapse to one. *)
Definition splitroot (s : pystr) : pystr :=
  match s with
  | 47%N :: 47%N :: 47%N :: _ => lit "/"
  | 47%N :: 47%N :: _ => lit "//"
  | 47%N :: _ => lit "/"
  | _ => []
  end.

Definition parse_path (s : pystr) : PurePath :=
  {| root := splitroot s; parts := components s |}.

Definition is_absolute (p : PurePath) : bool :=
  negb (pystr_eqb (root p) []).

(** [Path(a, b)]: an absolute [b] discards [a]. *)
Definition joinpath (a b : PurePath) : PurePath :=
  if is_absolute b then b
  else {| root := root a; parts := parts a ++ parts b |}.

Fixpoint join_sep (l : list pystr) : pystr :=
  match l with
  | [] => []
  | [p] => p
  | p :: rest => p ++ [SEP] ++ join_sep rest
  end.

(** [str(p)]. *)
Definition path_str (p : PurePath) : pystr :=
  match parts p with
  | [] => if is_absolute p then root p else lit "."
  | _ => root p ++ join_sep (parts p)
  end.

Fixpoint list_pystr_eqb (a b : list pystr) : bool :=
  match a, b with
  | [], [] => true
  | x :: a', y :: b' => pystr_eqb x y && list_pystr_eqb a' b'
  | _, _ => false
  end.

Definition path_eqb (p q : PurePath) : bool :=
  pystr_eqb (root p) (root q) && list_pystr_eqb (parts p) (parts q).

(** The path and its ancestors, shortest first, the bare root left out. *)
Definition with_ancestors (p : PurePath) : list PurePath :=
  map (fun n => {| root := root p; parts := firstn n (parts p) |})
      (seq 1 (List.length (parts p))).

(** *** Threads, effects and the world *)

(** A thread has not been started yet, runs, runs with a stop requested
    of it, or has ended. *)
Inductive ThreadState : Type := Initial | Started | Stopping | Stopped.

(** The thread has been started and has not ended: [is_alive()]. *)
Definition is_started (t : ThreadState) : bool :=
  match t with
  | Started | Stopping => true
  | Initial | Stopped => false
  end.

(** The calls made on the collaborators, in the order they are made.  A
    gaze source is named by the number [g] it got at construction, a
    keyboard listener by its number [l]. *)
Inductive Effect : Type :=
| EyeTrackerGaze_new (g : nat)
| Gaze_open (g : nat)
| Gaze_start (g : nat)
| Gaze_stop (g : nat)
| Gaze_close (g : nat)
| Gaze_to_csv (g : nat) (path label : pystr)
| Listener_new (l : nat)
| Listener_start (l : nat)
| Listener_stop (l : nat)
| Sleep (secs : Z)
| Path_exists (p : PurePath)
| Os_makedirs (p : PurePath)
| Print (text : pystr).

(** The file system as the program meets it: what [Path.exists()] answers
    or raises, and whether [os.makedirs] fails, for the directories the
    program has made so far.  Nothing is assumed of either. *)
Record OS : Type := {
  os_exists : list PurePath -> PurePath -> Result bool;
  os_makedirs_error : list PurePath -> PurePath -> option Exc
}.

(** The world: the clock, the listener threads, the number of gaze
    sources constructed, the directories [os.makedirs] has made so far
    (oldest first), the trace of the calls made, and the file system. *)
Record World : Type := {
  clock : datetime;
  threads : list ThreadState;
  gazes : nat;
  dirs : list PurePath;
  trace : list Effect;
  os : OS
}.

Definition M (A : Type) : Type := World -> Result A * World.

Definition ret {A} (a : A) : M A := fun w => (Ok a, w).

(** What was done before an exception stays done. *)
Definition bind {A B} (m : M A) (k : A -> M B) : M B :=
  fun w =>
    match m w with
    | (Ok a, w') => k a w'
    | (Raise e, w') => (Raise e, w')
    end.

Definition raise {A} (e : Exc) : M A := fun w => (Raise e, w).

Definition lift {A} (r : Result A) : M A := fun w => (r, w).

Definition emitted (w : World) (es : list Effect) : World :=
  {| clock := clock w; threads := threads w; gazes := gazes w;
     dirs := dirs w; trace := trace w ++ es; os := os w |}.

Definition emit (e : Effect) : M unit := fun w => (Ok tt, emitted w [e]).

Definition set_threads (ts : list ThreadState) (w : World) : World :=
  {| clock := clock w; threads := ts; gazes := gazes w;
     dirs := dirs w; trace := trace w; os := os w |}.

Definition set_gazes (n : nat) (w : World) : World :=
  {| clock := clock w; threads := threads w; gazes := n;
     dirs := dirs w; trace := trace w; os := os w |}.

Definition set_dirs (ds : list PurePath) (w : World) : World :=
  {| clock := clock w; threads := threads w; gazes := gazes w;
     dirs := ds; trace := trace w; os := os w |}.

Fixpoint update {A} (i : nat) (x : A) (l : list A) : list A :=
  match l, i with
  | [], _ => []
  | _ :: rest, O => x :: rest
  | y :: rest, S j => y :: update j x rest
  end.

Definition thread_state (w : World) (l : nat) : ThreadState :=
  nth l (threads w) Initial.

(** [datetime.now()]. *)
Definition datetime_now : M datetime := fun w => (Ok (clock w), w).

(** [EyeTrackerGaze()]. *)
Definition EyeTrackerGaze : M nat :=
  fun w => let g := gazes w in
           (Ok g, emitted (set_gazes (S g) w) [EyeTrackerGaze_new g]).

(** [Keyboard.Listener(on_press=...)]: a thread object, not yet started. *)
Definition Keyboard_Listener : M nat :=
  fun w => let l := List.length (threads w) in
           (Ok l, emitted (set_threads (threads w ++ [Initial]) w)
                          [Listener_new l]).

(** [l.is_alive()]. *)
Definition is_alive (l : nat) : M bool :=
  fun w => (Ok (is_started (thread_state w l)), w).

(** [l.start()]: a thread can be started once. *)
Definition listener_start (l : nat) : M unit :=
  fun w =>
    match thread_state w l with
    | Initial =>
        (Ok tt, emitted (set_threads (update l Started (threads w)) w)
                        [Listener_start l])
    | _ => (Raise (RuntimeError (lit "threads can only be started once")), w)
    end.

(** [l.stop()]: the running thread is asked to stop; the call does not
    wait for it, so the thread is still alive when the call returns. *)
Definition listener_stop (l : nat) : M unit :=
  fun w =>
    let ts := match thread_state w l with
              | Started => update l Stopping (threads w)
              | _ => threads w
              end in
    (Ok tt, emitted (set_threads ts w) [Listener_stop l]).

(** The thread [l] ends, some time after it was asked to or of itself: a
    step of the environment, not of the program. *)
Definition thread_ends (l : nat) (w : World) : World :=
  if is_started (thread_state w l)
  then set_threads (update l Stopped (threads w)) w
  else w.

(** [p.exists()]: the answer, or the exception, is the file system's. *)
Definition path_exists (p : PurePath) : M bool :=
  fun w => (os_exists (os w) (dirs w) p, emitted w [Path_exists p]).

(** [os.makedirs(p)]: the directory is made, or the call raises what the
    file system has it raise and no directory is made. *)
Definition os_makedirs (p : PurePath) : M unit :=
  fun w =>
    match os_makedirs_error (os w) (dirs w) p with
    | Some e => (Raise e, emitted w [Os_makedirs p])
    | None => (Ok tt, emitted (set_dirs (dirs w ++ [p]) w) [Os_makedirs p])
    end.

(** The calls that ask for or make a directory, or construct a listener
    or a gaze source. *)
Definition constructs (e : Effect) : bool :=
  match e with
  | EyeTrackerGaze_new _ | Listener_new _ | Path_exists _ | Os_makedirs _ =>
      true
  | _ => false
  end.

(** A plain file system, for running the model: it holds the directories
    [initial] and those made since, each with its ancestors, besides the
    root and the working directory; names are compared as written, and
    [os.makedirs] fails on a directory that is there and on nothing
    else. *)
Definition exists_in (ds : list PurePath) (p : PurePath) : bool :=
  match parts p with
  | [] => true
  | _ => existsb (path_eqb p) (flat_map with_ancestors ds)
  end.

Definition plain_os (initial : list PurePath) : OS :=
  {| os_exists := fun made p => Ok (exists_in (initial ++ made) p);
     os_makedirs_error := fun made p =>
       if exists_in (initial ++ made) p
       then Some (FileExistsError (path_str p))
       else None |}.

(** Two times that agree down to the minute. *)
Definition same_minute (t t' : datetime) : Prop :=
  year t = year t' /\ month t = month t' /\ day t = day t' /\
  hour t = hour t' /\ minute t = minute t'.

(** Time passing between two operations. *)
Definition set_clock (t : datetime) (w : World) : World :=
  {| clock := t; threads := threads w; gazes := gazes w;
     dirs := dirs w; trace := trace w; os := os w |}.

(** The effects an operation adds to the trace of the world it runs in. *)
Definition effects_of {A} (m : M A) (w : World) : list Effect :=
  skipn (List.length (trace w)) (trace (snd (m w))).

(** [print(text, end='')]. *)
Definition print (text : pystr) : M unit := emit (Print text).

(** [warn(s)] of [lib/py/app.py]. *)
Definition warn (s : pystr) : M unit := print (App.warn_text s).

End World.

Import World.

Declare Scope world_scope.
Notation "x <- m ;; k" := (bind m (fun x => k))
  (at level 61, m at next level, right associativity) : world_scope.
Notation "m ;;; k" := (bind m (fun _ => k))
  (at level 61, right associativity) : world_scope.
Delimit Scope world_scope with world.

(* ================================================================= *)
(** ** lib/py/hud_learn.py *)

Module HudLearn.

(** The module-level names bound when [hud_learn] is imported. *)
Record Globals : Type := {
  LOG_RAW_ROOTDIR : pystr;
  LOG_HUD_SUBDIR : pystr;
  NOW : pystr
}.

(** [_conf[key]]. *)
Definition conf_get (conf : list (string * pystr)) (key : string)
  : Result pystr :=
  match assoc key conf with
  | Some v => Ok v
  | None => Raise (KeyError (lit key))
  end.

(** The statements run at import: the two configuration entries are read
    and [NOW] is taken from the clock, once. *)
Definition import_module (conf : list (string * pystr)) : M Globals :=
  (root_dir <- lift (conf_get conf "EVENTLOG_RAW_ROOTDIR") ;;
   sub_dir <- lift (conf_get conf "EVENTLOG_HUD_SUBDIR") ;;
   now <- datetime_now ;;
   ret {| LOG_RAW_ROOTDIR := root_dir;
          LOG_HUD_SUBDIR := sub_dir;
          NOW := strftime_Ymd_HM now |})%world.

(** The handler object of a session; [_HUDTrain] and [_HUDInfer] have no
    instances, their constructors raise. *)
Inductive Handler : Type :=
| _HUDDataCollect (_keyb_listener : nat) (_logpath : pystr).

Definition async_proc (h : Handler) : nat :=
  match h with
  | _HUDDataCollect l _ => l
  end.

Definition _logpath (h : Handler) : pystr :=
  match h with
  | _HUDDataCollect _ p => p
  end.

(** The classes the mode table maps to. *)
Inductive HandlerClass : Type :=
| class_HUDDataCollect
| class_HUDTrain
| class_HUDInfer.

(** [{'collect': ..., 'train': ..., 'infer': ...}.get(mode, None)]. *)
Definition handler_for (mode : pystr) : option HandlerClass :=
  if pystr_eqb mode (lit "collect") then Some class_HUDDataCollect
  else if pystr_eqb mode (lit "train") then Some class_HUDTrain
  else if pystr_eqb mode (lit "infer") then Some class_HUDInfer
  else None.

Section Session.

(** The built-ins and the collaborators the module is parametric in:
    [str.lower]; the HUD state with the look-up
    [hud_state.hud.active_panel.btn_frompayload(key_id).centroid], which
    yields the two coordinates or raises; [str()] on a coordinate and on
    a key id. *)
Variable str_lower : pystr -> pystr.
Variable HudState : Type.
Variable Coord : Type.
Variable btn_centroid : HudState -> PyVal -> Result (Coord * Coord).
Variable str_coord : Coord -> pystr.
Variable str_val : PyVal -> pystr.

Variable G : Globals.

Record HUDLearn : Type := {
  hud_state : HudState;
  gazepoint : nat;
  _handler : Handler
}.

(** [logdir] of [datafile_path]. *)
Definition logdir : PurePath :=
  joinpath (parse_path (LOG_RAW_ROOTDIR G)) (parse_path (LOG_HUD_SUBDIR G)).

(** The property [HUDLearn.datafile_path]. *)
Definition datafile_path : M pystr :=
  (there <- path_exists logdir ;;
   (if negb there then os_makedirs logdir else ret tt) ;;;
   ret (path_str (joinpath logdir (parse_path (NOW G ++ lit ".csv")))))%world.

(** [_HUDDataCollect.__init__]. *)
Definition HUDDataCollect_init : M Handler :=
  (l <- Keyboard_Listener ;;
   p <- datafile_path ;;
   ret (_HUDDataCollect l p))%world.

(** [_HUDTrain.__init__] and [_HUDInfer.__init__]. *)
Definition HUDTrain_init : M Handler := raise NotImplementedError.
Definition HUDInfer_init : M Handler := raise NotImplementedError.

Definition construct (c : HandlerClass) : M Handler :=
  match c with
  | class_HUDDataCollect => HUDDataCollect_init
  | class_HUDTrain => HUDTrain_init
  | class_HUDInfer => HUDInfer_init
  end.

(** [HUDLearn.__init__(hud_state, mode)]. *)
Definition HUDLearn_init (hs : HudState) (mode : pystr) : M HUDLearn :=
  (g <- EyeTrackerGaze ;;
   match handler_for mode with
   | None => raise (ValueError (lit "Unsupported mode: " ++ mode))
   | Some c =>
       h <- construct c ;;
       ret {| hud_state := hs; gazepoint := g; _handler := h |}
   end)%world.

(** [HUDLearn.start]. *)
Definition start (self : HUDLearn) : M nat :=
  (alive <- is_alive (async_proc (_handler self)) ;;
   (if alive
    then warn (lit "HUDLearn received START but is already running.")
    else
      emit (Gaze_open (gazepoint self)) ;;;
      emit (Gaze_start (gazepoint self)) ;;;
      listener_start (async_proc (_handler self)) ;;;
      emit (Sleep 1)) ;;;
   ret (async_proc (_handler self)))%world.

(** [HUDLearn.stop]. *)
Definition stop (self : HUDLearn) : M nat :=
  (alive <- is_alive (async_proc (_handler self)) ;;
   (if negb alive
    then warn (lit "Keyboard watcher received STOP but is not running.")
    else
      emit (Gaze_stop (gazepoint self)) ;;;
      emit (Gaze_close (gazepoint self)) ;;;
      listener_stop (async_proc (_handler self))) ;;;
   ret (async_proc (_handler self)))%world.

(** The label of [_on_keypress]:
    [f'{centr[0]}, {centr[1]}, {key_id}']. *)
Definition label (centr : Coord * Coord) (key_id : PyVal) : pystr :=
  str_coord (fst centr) ++ lit ", " ++ str_coord (snd centr) ++ lit ", "
    ++ str_val key_id.

(** [_HUDDataCollect._on_keypress(key)] of the handler of [self]. *)
Definition _on_keypress (self : HUDLearn) (key : PyVal) : M unit :=
  (key_id <- lift (App.key_to_id str_lower key) ;;
   centr <- lift (btn_centroid (hud_state self) key_id) ;;
   emit (Gaze_to_csv (gazepoint self) (_logpath (_handler self))
                     (label centr key_id)))%world.

End Session.

(** The two warnings of the lifecycle, as printed. *)
Definition START_WARNING : pystr :=
  App.warn_text (lit "HUDLearn received START but is already running.").

Definition STOP_WARNING : pystr :=
  App.warn_text (lit "Keyboard watcher received STOP but is not running.").

(** The world in which the handler of a collect session computes its log
    path: the gaze source and the listener have been constructed. *)
Definition before_datafile_path (w : World) : World :=
  emitted (set_threads (threads w ++ [Initial])
             (emitted (set_gazes (S (gazes w)) w)
                      [EyeTrackerGaze_new (gazes w)]))
          [Listener_new (List.length (threads w))].

(** The error of a listener started a second time. *)
Definition RESTART_ERROR : Exc :=
  RuntimeError (lit "threads can only be started once").

(** A session is running when its listener thread is alive. *)
Definition running {HudState} (w : World) (self : HUDLearn HudState) : bool :=
  is_started (thread_state w (async_proc (_handler self))).

(** The reversal the spec words as "stop() reverses the sequence": each
    step of the start-up is undone, the last one first. *)
Definition undo (e : Effect) : list Effect :=
  match e with
  | Gaze_open g => [Gaze_close g]
  | Gaze_start g => [Gaze_stop g]
  | Listener_start l => [Listener_stop l]
  | _ => []
  end.

Definition reverse_of_startup (startup : list Effect) : list Effect :=
  flat_map undo (rev startup).

(** The label as the spec words it:
    ["{button.centroid.x},{button.centroid.y},{key_id}"]. *)
Definition spec_label (x y key_id : pystr) : pystr :=
  x ++ lit "," ++ y ++ lit "," ++ key_id.

(** The log path as the spec words it: the file is named after the time
    [t] at which the session starts. *)
Definition spec_logpath (G : Globals) (t : datetime) : pystr :=
  path_str (joinpath (logdir G)
                     (parse_path (strftime_Ymd_HM t ++ lit ".csv"))).

(** Modelled from the spec: the gaze source of [lib/py/eyetracker_gaze]
    is not part of the sources at hand; the spec has its flush write each
    drained sample as one row [gaze_x,gaze_y,<label>].  The samples carry
    their two coordinates as printed. *)
Definition flush_rows (buffer : list (pystr * pystr)) (label : pystr)
  : list pystr :=
  map (fun sample => fst sample ++ lit "," ++ snd sample ++ lit "," ++ label)
      buffer.

End HudLearn.

(* ================================================================= *)
(** ** A concrete instance, for running the model *)

Module Instance.

(** Modelled from the spec: the panel of [lib/py/hud.py] is not part of
    the sources at hand; the spec describes a button as a payload (a key
    id) with a centroid [(x, y)], looked up by payload.  A panel is a list
    of such buttons with integer screen coordinates.  What a miss does is
    left open by the spec; here it raises [KeyError]. *)
Definition Panel : Type := list (Z * (Z * Z)).

Fixpoint btn_frompayload (panel : Panel) (payload : Z) : option (Z * Z) :=
  match panel with
  | [] => None
  | (p, c) :: rest => if Z.eqb p payload then Some c
                      else btn_frompayload rest payload
  end.

(** [str()] on the values a key id can be; an object stands for its
    default representation, which no example prints. *)
Definition str_val (v : PyVal) : pystr :=
  match v with
  | PyNone => lit "None"
  | PyInt z => str_int z
  | PyStr s => s
  | PyObj _ => lit "<object>"
  end.

Definition btn_centroid (panel : Panel) (key_id : PyVal)
  : Result (Z * Z) :=
  match key_id with
  | PyInt z =>
      match btn_frompayload panel z with
      | Some c => Ok c
      | None => Raise (KeyError (str_val key_id))
      end
  | _ => Raise (KeyError (str_val key_id))
  end.

(** pynput's [KeyCode.from_char(c)], [KeyCode.from_vk(vk)] (its [char] is
    [None]) and a member of the [Key] enumeration, whose [value] is a
    [KeyCode]. *)
Definition KeyCode_from_char (c : codepoint) : PyVal :=
  PyObj [("vk", PyNone); ("char", PyStr [c]); ("is_dead", PyInt 0)].

Definition KeyCode_from_vk (vk : Z) : PyVal :=
  PyObj [("vk", PyInt vk); ("char", PyNone); ("is_dead", PyInt 0)].

Definition Key_member (name : pystr) (vk : Z) : PyVal :=
  PyObj [("name", PyStr name); ("value", KeyCode_from_vk vk)].

Definition key_to_id : PyVal -> Result PyVal := App.key_to_id lower_basic.

Definition conf : list (string * pystr) :=
  [("EVENTLOG_RAW_ROOTDIR", lit "/opt/app/data/");
   ("EVENTLOG_HUD_SUBDIR", lit "hud")].

Definition at_time (h m s : Z) : datetime :=
  {| year := 2020; month := 3; day := 1;
     hour := h; minute := m; second := s; microsecond := 0 |}.

Definition world0 : World :=
  {| clock := at_time 9 5 30; threads := []; gazes := 0;
     dirs := []; trace := []; os := plain_os [] |}.

Definition panel0 : Panel := [(97, (150, 250)); (98, (310, 250))]%Z.

(** What the import binds in [world0]. *)
Definition G0 : HudLearn.Globals :=
  {| HudLearn.LOG_RAW_ROOTDIR := lit "/opt/app/data/";
     HudLearn.LOG_HUD_SUBDIR := lit "hud";
     HudLearn.NOW := lit "2020-03-01-09-05" |}.

Definition HUDLearn_init : Panel -> pystr -> M (HudLearn.HUDLearn Panel) :=
  @HudLearn.HUDLearn_init Panel G0.

Definition _on_keypress : HudLearn.HUDLearn Panel -> PyVal -> M unit :=
  HudLearn._on_keypress lower_basic btn_centroid str_int str_val.

(** The session [HUDLearn(panel0, 'collect')] yields in [world0], the
    world it leaves, and that world once the session has been started. *)
Definition session0 : HudLearn.HUDLearn Panel :=
  {| HudLearn.hud_state := panel0; HudLearn.gazepoint := 0;
     HudLearn._handler :=
       HudLearn._HUDDataCollect
         0 (lit "/opt/app/data/hud/2020-03-01-09-05.csv") |}.

Definition constructed_world0 : World :=
  snd (HUDLearn_init panel0 (lit "collect") world0).

Definition running_world0 : World :=
  snd (HudLearn.start session0 constructed_world0).

(** A second session, constructed after the first. *)
Definition session1 : HudLearn.HUDLearn Panel :=
  {| HudLearn.hud_state := panel0; HudLearn.gazepoint := 1;
     HudLearn._handler :=
       HudLearn._HUDDataCollect
         1 (lit "/opt/app/data/hud/2020-03-01-09-05.csv") |}.

Definition constructed_world1 : World :=
  snd (HUDLearn_init panel0 (lit "collect") constructed_world0).

End Instance.

(* ================================================================= *)
(** ** Properties of [key_to_id] *)

Module AppFacts.

Import App.

Example key_to_id_upper_A :
  Instance.key_to_id (Instance.KeyCode_from_char 65%N) = Ok (PyInt 97%Z).
Proof. reflexivity. Qed.

Example key_to_id_enum_member :
  Instance.key_to_id (Instance.Key_member (lit "space") 65%Z) = Ok (PyInt 65%Z).
Proof. reflexivity. Qed.

Example key_to_id_vk_only :
  Instance.key_to_id (Instance.KeyCode_from_vk 65027%Z) = Ok (PyInt 65027%Z).
Proof. reflexivity. Qed.

(** The lowercase of U+0130 is two code points, and [ord] refuses it. *)
Example key_to_id_dotted_I :
  Instance.key_to_id (Instance.KeyCode_from_char 304%N) = Raise TypeError.
Proof. reflexivity. Qed.

Section Facts.

Variable str_lower : pystr -> pystr.

Lemma try_except_ok {A} (a : A) (h : Result A) :
  try_except_AttributeError (Ok a) h = Ok a.
Proof. reflexivity. Qed.

Lemma try_except_caught {A} (h : Result A) :
  try_except_AttributeError (Raise AttributeError) h = h.
Proof. reflexivity. Qed.

(** When the character look-up yields a one-character lowercase, the
    key id is its code, whatever [value] and [vk] hold. *)
Lemma key_to_id_char (key : PyVal) (s : pystr) (c : codepoint) :
  getattr key "char" = Ok (PyStr s) ->
  str_lower s = [c] ->
  key_to_id str_lower key = Ok (PyInt (Z.of_N c)).
Proof.
  intros Hc Hl. unfold key_to_id, char_code.
  rewrite Hc. cbn. rewrite Hl. reflexivity.
Qed.

(** When the character look-up raises [AttributeError], the key id is
    whatever the handler yields. *)
Lemma key_to_id_no_char (key : PyVal) :
  char_code str_lower key = Raise AttributeError ->
  key_to_id str_lower key = vk_fallback key.
Proof.
  intros H. unfold key_to_id. rewrite H. apply try_except_caught.
Qed.




(** No step of the handler raises anything but [AttributeError]. *)
Lemma getattr_raises (v : PyVal) (name : string) (e : Exc) :
  getattr v name = Raise e -> e = AttributeError.
Proof.
  destruct v as [| z | s | attrs]; cbn; try congruence.
  destruct (assoc name attrs); congruence.
Qed.

Lemma value_vk_raises (key : PyVal) (e : Exc) :
  value_vk key = Raise e -> e = AttributeError.
Proof.
  unfold value_vk, rbind.
  destruct (getattr key "value") as [v | e'] eqn:Hv.
  - apply getattr_raises.
  - intros H. injection H as <-. exact (getattr_raises _ _ Hv).
Qed.

Lemma lacks_char_char_code (key : PyVal) :
  lacks_char key = true -> char_code str_lower key = Raise AttributeError.
Proof.
  unfold lacks_char, char_code, rbind.
  destruct (getattr key "char") as [v | e] eqn:Hc.
  - destruct v as [| z | s | attrs]; cbn; try congruence.
    destruct (assoc "lower" attrs); congruence.
  - intros _. f_equal. exact (getattr_raises _ _ Hc).
Qed.

End Facts.

End AppFacts.

(* ================================================================= *)
(** ** The key identifier: order of the three resolutions *)

Module KeyIdentifier.

Import App AppFacts.

(** The order of the three resolutions, where each of them yields an id.
    A key whose [char] is a string yields [ord] of the lower-cased string,
    whatever its [value] and [vk] hold: the code of the lower-cased
    character when the lowercase is one code point.  A key without a
    character and with a nested [value.vk] yields that.  A key without a
    character and without nested [value.vk] yields its own [vk] field. *)
Lemma key_to_id_first_match_wins
    (str_lower : pystr -> pystr) (key : PyVal) :
  (forall s, getattr key "char" = Ok (PyStr s) ->
     key_to_id str_lower key = ord (PyStr (str_lower s))) /\
  (forall s c, getattr key "char" = Ok (PyStr s) -> str_lower s = [c] ->
     key_to_id str_lower key = Ok (PyInt (Z.of_N c))) /\
  (forall v n, lacks_char key = true ->
     getattr key "value" = Ok v -> getattr v "vk" = Ok n ->
     key_to_id str_lower key = Ok n) /\
  (lacks_char key = true -> has_value_vk key = false ->
     key_to_id str_lower key = getattr key "vk").
Proof.
  repeat split.
  - intros s Hc. unfold key_to_id, char_code. rewrite Hc. cbn.
    destruct (str_lower s) as [| c [| c' rest]]; reflexivity.
  - intros s c Hc Hl. exact (key_to_id_char str_lower key Hc Hl).
  - intros v n Hno Hv Hn.
    rewrite (key_to_id_no_char str_lower key
               (lacks_char_char_code str_lower key Hno)).
    unfold vk_fallback, value_vk. rewrite Hv. cbn. rewrite Hn. reflexivity.
  - intros Hno Hnv.
    rewrite (key_to_id_no_char str_lower key
               (lacks_char_char_code str_lower key Hno)).
    unfold vk_fallback. unfold has_value_vk in Hnv.
    destruct (value_vk key) as [n | e] eqn:Hvk; [discriminate |].
    rewrite (value_vk_raises key Hvk). reflexivity.
Qed.

(** The three resolutions at work: ['A'] is resolved by its character, the
    enumeration member by its nested [value.vk], the bare key code by its
    own [vk]. *)
Example key_to_id_three_shapes :
  Instance.key_to_id (Instance.KeyCode_from_char 65%N) = Ok (PyInt 97%Z) /\
  Instance.key_to_id (Instance.Key_member (lit "space") 65%Z)
    = Ok (PyInt 65%Z) /\
  Instance.key_to_id (Instance.KeyCode_from_vk 65027%Z) = Ok (PyInt 65027%Z).
Proof.
  split; [| split].
  - destruct (key_to_id_first_match_wins lower_basic
                (Instance.KeyCode_from_char 65%N)) as (_ & H & _).
    apply (H [65%N] 97%N); reflexivity.
  - destruct (key_to_id_first_match_wins lower_basic
                (Instance.Key_member (lit "space") 65%Z)) as (_ & _ & H & _).
    apply (H (Instance.KeyCode_from_vk 65%Z) (PyInt 65%Z)); reflexivity.
  - destruct (key_to_id_first_match_wins lower_basic
                (Instance.KeyCode_from_vk 65027%Z)) as (_ & _ & _ & H).
    apply H; reflexivity.
Qed.

(** C8, where the code breaks it.  A key with a printable character whose
    lowercase is not one code point gets no id: [ord] raises [TypeError],
    the handler of [AttributeError] does not catch it, and neither
    [key.value.vk] nor [key.vk] is tried.  U+0130, whose lowercase is
    U+0069 U+0307, is such a character. *)
Theorem key_to_id_raises_on_long_lowercase
    (str_lower : pystr -> pystr) (key : PyVal) (s : pystr) :
  getattr key "char" = Ok (PyStr s) ->
  List.length (str_lower s) <> 1 ->
  key_to_id str_lower key = Raise TypeError.
Proof.
  intros Hc Hlen. unfold key_to_id, char_code. rewrite Hc. cbn.
  destruct (str_lower s) as [| c [| c' rest]]; cbn in *;
    try reflexivity. contradiction.
Qed.

Lemma key_to_id_raises_on_long_lowercase_witness :
  lower_basic [304%N] = [105%N; 775%N] /\
  key_to_id lower_basic
    (PyObj [("vk", PyInt 304); ("char", PyStr [304%N]);
            ("is_dead", PyInt 0)]) = Raise TypeError.
Proof.
  split; [reflexivity |].
  apply (@key_to_id_raises_on_long_lowercase lower_basic
           (PyObj [("vk", PyInt 304); ("char", PyStr [304%N]);
                   ("is_dead", PyInt 0)]) [304%N]).
  - reflexivity.
  - cbn. lia.
Defined.




End KeyIdentifier.

(* ================================================================= *)
(** ** Facts about strings, threads and paths *)

Module WorldFacts.

Lemma pystr_eqb_eq (a b : pystr) : pystr_eqb a b = true <-> a = b.
Proof.
  revert b. induction a as [| x a IH]; intros [| y b]; cbn;
    try (split; [discriminate | congruence]).
  - split; reflexivity.
  - rewrite andb_true_iff, N.eqb_eq, IH. split.
    + intros [-> ->]. reflexivity.
    + intros H. injection H as -> ->. split; reflexivity.
Qed.

Lemma pystr_eqb_refl (a : pystr) : pystr_eqb a a = true.
Proof. apply pystr_eqb_eq. reflexivity. Qed.

Lemma pystr_eqb_neq (a b : pystr) : a <> b -> pystr_eqb a b = false.
Proof.
  intros Hne. destruct (pystr_eqb a b) eqn:E; [| reflexivity].
  apply pystr_eqb_eq in E. contradiction.
Qed.

Lemma list_pystr_eqb_refl (l : list pystr) : list_pystr_eqb l l = true.
Proof.
  induction l as [| x l IH]; cbn; [reflexivity |].
  rewrite pystr_eqb_refl. exact IH.
Qed.

Lemma path_eqb_refl (p : PurePath) : path_eqb p p = true.
Proof.
  unfold path_eqb. rewrite pystr_eqb_refl. apply list_pystr_eqb_refl.
Qed.

Lemma nth_update_same {A} (i : nat) (x d : A) (l : list A) :
  i < List.length l -> nth i (update i x l) d = x.
Proof.
  revert i. induction l as [| y l IH]; intros [| i] Hi; cbn in *;
    try lia; [reflexivity |].
  apply IH. lia.
Qed.

Lemma nth_in_range {A} (i : nat) (d : A) (l : list A) :
  nth i l d <> d -> i < List.length l.
Proof.
  intros Hne. destruct (Nat.lt_ge_cases i (List.length l)) as [Hlt | Hge];
    [exact Hlt |].
  exfalso. apply Hne. apply nth_overflow. exact Hge.
Qed.

Lemma started_in_range (w : World) (l : nat) :
  is_started (thread_state w l) = true -> l < List.length (threads w).
Proof.
  unfold thread_state. intros H. apply nth_in_range with (d := Initial).
  intros E. rewrite E in H. discriminate.
Qed.

Lemma update_length {A} (i : nat) (x : A) (l : list A) :
  List.length (update i x l) = List.length l.
Proof.
  revert i. induction l as [| y l IH]; intros [| i]; cbn; try reflexivity.
  f_equal. apply IH.
Qed.

End WorldFacts.

(* ================================================================= *)
(** ** The session lifecycle *)

Module Lifecycle.

Import HudLearn WorldFacts.

Section Lifecycle.

Variable HudState : Type.
Implicit Type self : HUDLearn HudState.

Lemma start_running self (w : World) :
  running w self = true ->
  start self w = (Ok (async_proc (_handler self)),
                  emitted w [Print START_WARNING]).
Proof.
  unfold running, start, bind, is_alive. cbn. intros ->. reflexivity.
Qed.

Lemma stop_stopped self (w : World) :
  running w self = false ->
  stop self w = (Ok (async_proc (_handler self)),
                 emitted w [Print STOP_WARNING]).
Proof.
  unfold running, stop, bind, is_alive. cbn. intros ->. reflexivity.
Qed.

Lemma stop_running self (w : World) :
  running w self = true ->
  stop self w =
    (Ok (async_proc (_handler self)),
     emitted (set_threads
                (match thread_state w (async_proc (_handler self)) with
                 | Started =>
                     update (async_proc (_handler self)) Stopping (threads w)
                 | _ => threads w
                 end) w)
             [Gaze_stop (gazepoint self); Gaze_close (gazepoint self);
              Listener_stop (async_proc (_handler self))]).
Proof.
  unfold running, stop, bind, is_alive. intros H. rewrite H.
  unfold listener_stop, emit, emitted, set_threads, thread_state in *.
  cbn. rewrite <- !app_assoc. reflexivity.
Qed.

Lemma start_initial self (w : World) :
  thread_state w (async_proc (_handler self)) = Initial ->
  start self w =
    (Ok (async_proc (_handler self)),
     emitted (set_threads
                (update (async_proc (_handler self)) Started (threads w)) w)
             [Gaze_open (gazepoint self); Gaze_start (gazepoint self);
              Listener_start (async_proc (_handler self)); Sleep 1]).
Proof.
  unfold start, bind, is_alive. intros H. rewrite H.
  unfold listener_start, emit, emitted, set_threads, thread_state in *.
  cbn. rewrite H. unfold ret. cbn. rewrite <- !app_assoc. reflexivity.
Qed.

(** Once started, a session is running.  [stop()] leaves the listener
    alive, asked to stop; the session is not running once the listener
    thread has ended. *)
Lemma start_makes_running self (w : World) :
  thread_state w (async_proc (_handler self)) = Initial ->
  async_proc (_handler self) < List.length (threads w) ->
  running (snd (start self w)) self = true.
Proof.
  intros Hinit Hlt. rewrite (start_initial self w Hinit).
  unfold running, thread_state. cbn.
  rewrite nth_update_same by exact Hlt. reflexivity.
Qed.

Lemma stop_keeps_alive self (w : World) :
  running w self = true ->
  running (snd (stop self w)) self = true.
Proof.
  intros Hrun. rewrite (stop_running self w Hrun).
  unfold running in *. unfold thread_state in *. cbn.
  destruct (nth (async_proc (_handler self)) (threads w) Initial) eqn:Hst;
    try discriminate; cbn; rewrite ?Hst; try reflexivity.
  rewrite nth_update_same; [reflexivity |].
  apply nth_in_range with (d := Initial). rewrite Hst. discriminate.
Qed.

Lemma thread_ends_not_running self (w : World) :
  running (thread_ends (async_proc (_handler self)) w) self = false.
Proof.
  unfold thread_ends, running.
  destruct (is_started (thread_state w (async_proc (_handler self))))
    eqn:Hal; [| exact Hal].
  unfold thread_state. cbn.
  rewrite nth_update_same; [reflexivity |].
  apply started_in_range. exact Hal.
Qed.

Lemma thread_ends_state self (w : World) :
  running w self = true ->
  thread_state (thread_ends (async_proc (_handler self)) w)
               (async_proc (_handler self)) = Stopped.
Proof.
  unfold running, thread_ends. intros Hal. rewrite Hal.
  unfold thread_state. cbn.
  apply nth_update_same. apply started_in_range. exact Hal.
Qed.

End Lifecycle.

Lemma skipn_app_exact {A} (l es : list A) :
  skipn (List.length l) (l ++ es) = es.
Proof. induction l as [| x l IH]; [reflexivity | exact IH]. Qed.

(** C3.  [start()] on a running session changes nothing: the session is
    still running, the one effect is the warning, printed once, no gaze
    source or listener is created, opened or started, and the handle of
    the running listener is returned. *)
Theorem start_while_running_is_noop
    (HudState : Type) (self : HUDLearn HudState) (w : World) :
  running w self = true ->
  fst (start self w) = Ok (async_proc (_handler self)) /\
  effects_of (start self) w = [Print START_WARNING] /\
  trace (snd (start self w)) = trace w ++ [Print START_WARNING] /\
  threads (snd (start self w)) = threads w /\
  gazes (snd (start self w)) = gazes w /\
  dirs (snd (start self w)) = dirs w /\
  running (snd (start self w)) self = true.
Proof.
  intros Hrun. unfold effects_of. rewrite (start_running self w Hrun). cbn.
  rewrite skipn_app_exact. repeat split. exact Hrun.
Qed.

(** C4.  [stop()] on a stopped session changes nothing: the session is
    still stopped, the one effect is the warning, printed once, neither
    the gaze source nor the listener is stopped or closed, and the handle
    is returned. *)
Theorem stop_while_stopped_is_noop
    (HudState : Type) (self : HUDLearn HudState) (w : World) :
  running w self = false ->
  fst (stop self w) = Ok (async_proc (_handler self)) /\
  effects_of (stop self) w = [Print STOP_WARNING] /\
  trace (snd (stop self w)) = trace w ++ [Print STOP_WARNING] /\
  threads (snd (stop self w)) = threads w /\
  gazes (snd (stop self w)) = gazes w /\
  dirs (snd (stop self w)) = dirs w /\
  running (snd (stop self w)) self = false.
Proof.
  intros Hrun. unfold effects_of. rewrite (stop_stopped self w Hrun). cbn.
  rewrite skipn_app_exact. repeat split. exact Hrun.
Qed.

(** C7, as the code has it.  [start()] on a session whose listener was
    never started opens the gaze source, starts it, starts the listener
    and sleeps; [stop()] on a running session stops the gaze source,
    closes it, and asks the listener to stop last. *)
Theorem stop_tears_down_gaze_source_first
    (HudState : Type) (self : HUDLearn HudState) (w : World) :
  (thread_state w (async_proc (_handler self)) = Initial ->
   fst (start self w) = Ok (async_proc (_handler self)) /\
   effects_of (start self) w =
     [Gaze_open (gazepoint self); Gaze_start (gazepoint self);
      Listener_start (async_proc (_handler self)); Sleep 1]) /\
  (running w self = true ->
   fst (stop self w) = Ok (async_proc (_handler self)) /\
   effects_of (stop self) w =
     [Gaze_stop (gazepoint self); Gaze_close (gazepoint self);
      Listener_stop (async_proc (_handler self))]).
Proof.
  split.
  - intros Hinit. unfold effects_of. rewrite (start_initial self w Hinit).
    cbn. rewrite skipn_app_exact. split; reflexivity.
  - intros Hrun. split.
    + rewrite (stop_running self w Hrun). reflexivity.
    + unfold effects_of. rewrite (stop_running self w Hrun). cbn.
      apply skipn_app_exact.
Qed.

Lemma start_while_running_is_noop_witness :
  fst (start Instance.session0 Instance.running_world0) = Ok 0 /\
  effects_of (start Instance.session0) Instance.running_world0
    = [Print START_WARNING] /\
  running (snd (start Instance.session0 Instance.running_world0))
          Instance.session0 = true.
Proof.
  destruct (@start_while_running_is_noop Instance.Panel Instance.session0
              Instance.running_world0 eq_refl)
    as (H1 & H2 & _ & _ & _ & _ & H3).
  split; [exact H1 | split; [exact H2 | exact H3]].
Defined.

Lemma stop_while_stopped_is_noop_witness :
  fst (stop Instance.session0 Instance.constructed_world0) = Ok 0 /\
  effects_of (stop Instance.session0) Instance.constructed_world0
    = [Print STOP_WARNING] /\
  running (snd (stop Instance.session0 Instance.constructed_world0))
          Instance.session0 = false.
Proof.
  destruct (@stop_while_stopped_is_noop Instance.Panel Instance.session0
              Instance.constructed_world0 eq_refl)
    as (H1 & H2 & _ & _ & _ & _ & H3).
  split; [exact H1 | split; [exact H2 | exact H3]].
Defined.

Lemma stop_tears_down_gaze_source_first_witness :
  effects_of (start Instance.session0) Instance.constructed_world0 =
    [Gaze_open 0; Gaze_start 0; Listener_start 0; Sleep 1] /\
  effects_of (stop Instance.session0) Instance.running_world0 =
    [Gaze_stop 0; Gaze_close 0; Listener_stop 0].
Proof.
  destruct (@stop_tears_down_gaze_source_first Instance.Panel
              Instance.session0 Instance.constructed_world0) as (Hstart & _).
  destruct (@stop_tears_down_gaze_source_first Instance.Panel
              Instance.session0 Instance.running_world0) as (_ & Hstop).
  destruct (Hstart eq_refl) as (_ & H0).
  destruct (Hstop eq_refl) as (_ & H1).
  split; [exact H0 | exact H1].
Defined.

(** C7, as the spec words it, fails: a session is constructed, started and
    stopped; the listener is stopped last, whereas the reverse of the
    start-up stops it first. *)
Lemma stop_is_not_the_reverse_of_start :
  exists self w1 l w2 w3,
    Instance.HUDLearn_init Instance.panel0 (lit "collect") Instance.world0
      = (Ok self, w1) /\
    start self w1 = (Ok l, w2) /\
    stop self w2 = (Ok l, w3) /\
    effects_of (start self) w1 =
      [Gaze_open 0; Gaze_start 0; Listener_start 0; Sleep 1] /\
    effects_of (stop self) w2 =
      [Gaze_stop 0; Gaze_close 0; Listener_stop 0] /\
    reverse_of_startup (effects_of (start self) w1) =
      [Listener_stop 0; Gaze_stop 0; Gaze_close 0] /\
    effects_of (stop self) w2 <>
      reverse_of_startup (effects_of (start self) w1).
Proof.
  do 5 eexists. repeat (split; [reflexivity |]).
  vm_compute. discriminate.
Qed.

End Lifecycle.

(* ================================================================= *)
(** ** Mode dispatch at construction *)

Module Dispatch.

Import HudLearn WorldFacts Lifecycle.

Lemma handler_for_unknown (mode : pystr) :
  mode <> lit "collect" -> mode <> lit "train" -> mode <> lit "infer" ->
  handler_for mode = None.
Proof.
  intros Hc Ht Hi. unfold handler_for.
  rewrite (pystr_eqb_neq Hc), (pystr_eqb_neq Ht), (pystr_eqb_neq Hi).
  reflexivity.
Qed.

Lemma HUDLearn_init_unknown
    (G : Globals) (HudState : Type) (hs : HudState) (mode : pystr)
    (w : World) :
  handler_for mode = None ->
  HUDLearn_init G hs mode w =
    (Raise (ValueError (lit "Unsupported mode: " ++ mode)),
     emitted (set_gazes (S (gazes w)) w) [EyeTrackerGaze_new (gazes w)]).
Proof.
  intros H. unfold HUDLearn_init, bind, EyeTrackerGaze. rewrite H.
  reflexivity.
Qed.

(** C5.  For a mode tag that is none of [collect], [train] and [infer],
    the construction raises [ValueError] with the message
    [Unsupported mode: ] and the tag, and nothing has been acquired by
    then: the one call made is the constructor of the gaze source object,
    which is neither opened nor started; no keyboard listener is created,
    no thread changes, and the file system is neither asked for the log
    directory nor changed. *)
Theorem unknown_mode_is_rejected
    (G : Globals) (HudState : Type) (hs : HudState) (mode : pystr)
    (w : World) :
  mode <> lit "collect" -> mode <> lit "train" -> mode <> lit "infer" ->
  fst (HUDLearn_init G hs mode w)
    = Raise (ValueError (lit "Unsupported mode: " ++ mode)) /\
  effects_of (HUDLearn_init G hs mode) w = [EyeTrackerGaze_new (gazes w)] /\
  threads (snd (HUDLearn_init G hs mode w)) = threads w /\
  dirs (snd (HUDLearn_init G hs mode w)) = dirs w.
Proof.
  intros Hc Ht Hi. unfold effects_of.
  rewrite (HUDLearn_init_unknown G hs mode w (handler_for_unknown Hc Ht Hi)).
  cbn. rewrite skipn_app_exact. repeat split.
Qed.

Lemma unknown_mode_is_rejected_witness :
  fst (Instance.HUDLearn_init Instance.panel0 (lit "bogus") Instance.world0)
    = Raise (ValueError (lit "Unsupported mode: bogus")) /\
  effects_of (Instance.HUDLearn_init Instance.panel0 (lit "bogus"))
             Instance.world0 = [EyeTrackerGaze_new 0].
Proof.
  destruct (@unknown_mode_is_rejected Instance.G0 Instance.Panel
              Instance.panel0 (lit "bogus") Instance.world0)
    as (H1 & H2 & _); try (cbn; discriminate).
  split; [exact H1 | exact H2].
Defined.

(** C6.  With the tag [train] and with the tag [infer] the construction
    raises [NotImplementedError], which reaches the caller as it is: no
    session object is returned, no listener is created and no thread
    changes state, so no session is ever running. *)
Theorem train_and_infer_are_not_implemented
    (G : Globals) (HudState : Type) (hs : HudState) (w : World) :
  (fst (HUDLearn_init G hs (lit "train") w) = Raise NotImplementedError /\
   effects_of (HUDLearn_init G hs (lit "train")) w
     = [EyeTrackerGaze_new (gazes w)] /\
   threads (snd (HUDLearn_init G hs (lit "train") w)) = threads w) /\
  (fst (HUDLearn_init G hs (lit "infer") w) = Raise NotImplementedError /\
   effects_of (HUDLearn_init G hs (lit "infer")) w
     = [EyeTrackerGaze_new (gazes w)] /\
   threads (snd (HUDLearn_init G hs (lit "infer") w)) = threads w).
Proof.
  unfold effects_of. cbn. rewrite skipn_app_exact. repeat split.
Qed.

End Dispatch.

(* ================================================================= *)
(** ** The key-press handler of the collector *)

Module Collector.

Import HudLearn WorldFacts Lifecycle.

Lemma skipn_all_exact {A} (l : list A) : skipn (List.length l) l = [].
Proof. induction l as [| x l IH]; [reflexivity | exact IH]. Qed.

Section OnKeypress.

Variable str_lower : pystr -> pystr.
Variable HudState : Type.
Variable Coord : Type.
Variable btn_centroid : HudState -> PyVal -> Result (Coord * Coord).
Variable str_coord : Coord -> pystr.
Variable str_val : PyVal -> pystr.

Let on_keypress := _on_keypress str_lower btn_centroid str_coord str_val.

(** A key press flushes once when the key and its button resolve, and
    does nothing otherwise. *)
Lemma on_keypress_effects (self : HUDLearn HudState) (key : PyVal)
    (w : World) :
  effects_of (on_keypress self key) w =
    match App.key_to_id str_lower key with
    | Ok key_id =>
        match btn_centroid (hud_state self) key_id with
        | Ok centr =>
            [Gaze_to_csv (gazepoint self) (_logpath (_handler self))
                         (label str_coord str_val centr key_id)]
        | Raise _ => []
        end
    | Raise _ => []
    end.
Proof.
  unfold effects_of, on_keypress, _on_keypress, bind, lift, emit.
  destruct (App.key_to_id str_lower key) as [key_id | e]; cbn.
  - destruct (btn_centroid (hud_state self) key_id) as [centr | e]; cbn.
    + apply skipn_app_exact.
    + apply skipn_all_exact.
  - apply skipn_all_exact.
Qed.

Lemma on_keypress_one_file (self : HUDLearn HudState) (key : PyVal)
    (w : World) (e : Effect) :
  In e (effects_of (on_keypress self key) w) ->
  exists lbl,
    e = Gaze_to_csv (gazepoint self) (_logpath (_handler self)) lbl.
Proof.
  rewrite on_keypress_effects.
  destruct (App.key_to_id str_lower key) as [key_id | ?]; [| intros []].
  destruct (btn_centroid (hud_state self) key_id) as [centr | ?];
    [| intros []].
  intros [<- | []]. eexists. reflexivity.
Qed.

End OnKeypress.

(** C1, as the code has it.  For a key press whose key id and button
    resolve, the handler builds the label from the two centroid
    coordinates and the key id with a comma and a space between them, and
    calls [to_csv] of the gaze source once, with the log path of the
    session and that label; nothing else is done.  With a flush that
    writes one row [gaze_x,gaze_y,<label>] per drained sample, there are
    as many rows as samples, none of them a header, and each row is
    [gaze_x,gaze_y,btn_x, btn_y, key_id]. *)
Theorem on_keypress_flushes_once_with_label
    (str_lower : pystr -> pystr) (HudState Coord : Type)
    (btn_centroid : HudState -> PyVal -> Result (Coord * Coord))
    (str_coord : Coord -> pystr) (str_val : PyVal -> pystr)
    (self : HUDLearn HudState) (key key_id : PyVal) (centr : Coord * Coord)
    (w : World) :
  App.key_to_id str_lower key = Ok key_id ->
  btn_centroid (hud_state self) key_id = Ok centr ->
  fst (_on_keypress str_lower btn_centroid str_coord str_val self key w)
    = Ok tt /\
  effects_of (_on_keypress str_lower btn_centroid str_coord str_val self key)
             w =
    [Gaze_to_csv (gazepoint self) (_logpath (_handler self))
       (str_coord (fst centr) ++ lit ", " ++ str_coord (snd centr)
          ++ lit ", " ++ str_val key_id)] /\
  threads (snd (_on_keypress str_lower btn_centroid str_coord str_val
                             self key w)) = threads w /\
  dirs (snd (_on_keypress str_lower btn_centroid str_coord str_val
                          self key w)) = dirs w /\
  (forall buffer : list (pystr * pystr),
     List.length (flush_rows buffer
                    (label str_coord str_val centr key_id))
       = List.length buffer /\
     forall i gaze_x gaze_y,
       nth_error buffer i = Some (gaze_x, gaze_y) ->
       nth_error (flush_rows buffer (label str_coord str_val centr key_id)) i
         = Some (gaze_x ++ lit "," ++ gaze_y ++ lit ","
                   ++ str_coord (fst centr) ++ lit ", "
                   ++ str_coord (snd centr) ++ lit ", " ++ str_val key_id)).
Proof.
  intros Hk Hb. split; [| split; [| split; [| split]]].
  - unfold _on_keypress, bind, lift. rewrite Hk, Hb. reflexivity.
  - rewrite on_keypress_effects, Hk, Hb. reflexivity.
  - unfold _on_keypress, bind, lift. rewrite Hk, Hb. reflexivity.
  - unfold _on_keypress, bind, lift. rewrite Hk, Hb. reflexivity.
  - intros buffer. split.
    + unfold flush_rows. apply length_map.
    + intros i gaze_x gaze_y Hi. unfold flush_rows.
      rewrite (map_nth_error _ _ _ Hi). reflexivity.
Qed.

Lemma on_keypress_flushes_once_with_label_witness :
  effects_of (Instance._on_keypress Instance.session0
                (Instance.KeyCode_from_char 65%N))
             Instance.world0 =
    [Gaze_to_csv 0 (lit "/opt/app/data/hud/2020-03-01-09-05.csv")
                 (lit "150, 250, 97")].
Proof.
  destruct (@on_keypress_flushes_once_with_label lower_basic Instance.Panel
              Z Instance.btn_centroid str_int Instance.str_val Instance.session0
              (Instance.KeyCode_from_char 65%N) (PyInt 97%Z)
              (150%Z, 250%Z) Instance.world0 eq_refl eq_refl)
    as (_ & H & _).
  exact H.
Defined.

(** C1, as the spec words it, fails: in the scenario of the spec (the key
    [a], whose button has the centroid [(150, 250)]) the label handed to
    [to_csv] is not [150,250,97]. *)
Lemma on_keypress_label_has_spaces :
  exists self w1,
    Instance.HUDLearn_init Instance.panel0 (lit "collect") Instance.world0
      = (Ok self, w1) /\
    effects_of (Instance._on_keypress self (Instance.KeyCode_from_char 97%N))
               w1 =
      [Gaze_to_csv 0 (lit "/opt/app/data/hud/2020-03-01-09-05.csv")
                   (lit "150, 250, 97")] /\
    spec_label (str_int 150) (str_int 250) (Instance.str_val (PyInt 97))
      = lit "150,250,97" /\
    effects_of (Instance._on_keypress self (Instance.KeyCode_from_char 97%N))
               w1 <>
      [Gaze_to_csv 0 (lit "/opt/app/data/hud/2020-03-01-09-05.csv")
         (spec_label (str_int 150) (str_int 250)
                     (Instance.str_val (PyInt 97)))].
Proof.
  do 2 eexists. split; [reflexivity |].
  split; [reflexivity |]. split; [reflexivity |].
  vm_compute. discriminate.
Qed.

(** The rows of the scenario of the spec, under its reading of the
    flush: the label brings its spaces into every row. *)
Example rows_of_scenario :
  flush_rows [(str_int 100, str_int 200); (str_int 101, str_int 201);
              (str_int 99, str_int 199)]
             (label str_int Instance.str_val (150%Z, 250%Z) (PyInt 97))
  = [lit "100,200,150, 250, 97"; lit "101,201,150, 250, 97";
     lit "99,199,150, 250, 97"].
Proof. reflexivity. Qed.

End Collector.

(* ================================================================= *)
(** ** The log path of a session *)

Module LogPath.

Import HudLearn WorldFacts Lifecycle Collector.

(** The path [datafile_path] computes. *)
Lemma datafile_path_value (G : Globals) (w w' : World) (p : pystr) :
  datafile_path G w = (Ok p, w') ->
  p = path_str (joinpath (logdir G) (parse_path (NOW G ++ lit ".csv"))).
Proof.
  unfold datafile_path, bind, path_exists, os_makedirs, ret.
  destruct (os_exists (os w) (dirs w) (logdir G)) as [[|] | e]; cbn.
  - intros H. injection H as <- _. reflexivity.
  - destruct (os_makedirs_error _ _ _); cbn; [discriminate |].
    intros H. injection H as <- _. reflexivity.
  - discriminate.
Qed.

(** When [datafile_path] returns, either the directory was reported to
    be there and nothing was made, or it was reported missing and
    [os.makedirs] made it. *)
Lemma datafile_path_world (G : Globals) (w w' : World) (p : pystr) :
  datafile_path G w = (Ok p, w') ->
  (os_exists (os w) (dirs w) (logdir G) = Ok true /\
   w' = emitted w [Path_exists (logdir G)]) \/
  (os_exists (os w) (dirs w) (logdir G) = Ok false /\
   os_makedirs_error (os w) (dirs w) (logdir G) = None /\
   w' = emitted (set_dirs (dirs w ++ [logdir G])
                          (emitted w [Path_exists (logdir G)]))
                [Os_makedirs (logdir G)]).
Proof.
  unfold datafile_path, bind, path_exists, os_makedirs, ret.
  destruct (os_exists (os w) (dirs w) (logdir G)) as [[|] | e]; cbn.
  - intros H. injection H as _ <-. left. split; reflexivity.
  - destruct (os_makedirs_error _ _ _) eqn:Hm; cbn; [discriminate |].
    intros H. injection H as _ <-. right. repeat split.
  - discriminate.
Qed.

Lemma import_module_spec (conf : list (string * pystr)) (w0 w1 : World)
    (G : Globals) :
  import_module conf w0 = (Ok G, w1) ->
  conf_get conf "EVENTLOG_RAW_ROOTDIR" = Ok (LOG_RAW_ROOTDIR G) /\
  conf_get conf "EVENTLOG_HUD_SUBDIR" = Ok (LOG_HUD_SUBDIR G) /\
  NOW G = strftime_Ymd_HM (clock w0) /\
  w1 = w0.
Proof.
  unfold import_module, bind, lift, datetime_now, ret.
  destruct (conf_get conf "EVENTLOG_RAW_ROOTDIR") as [r | e]; [| discriminate].
  destruct (conf_get conf "EVENTLOG_HUD_SUBDIR") as [s | e]; [| discriminate].
  intros H. injection H as <- <-. repeat split.
Qed.

Lemma strftime_minute_resolution (t t' : datetime) :
  year t = year t' -> month t = month t' -> day t = day t' ->
  hour t = hour t' -> minute t = minute t' ->
  strftime_Ymd_HM t = strftime_Ymd_HM t'.
Proof.
  unfold strftime_Ymd_HM. intros -> -> -> -> ->. reflexivity.
Qed.

Lemma HUDLearn_init_collect_eq (G : Globals) (HudState : Type)
    (hs : HudState) (w : World) :
  HUDLearn_init G hs (lit "collect") w =
    match datafile_path G (before_datafile_path w) with
    | (Ok p, w') =>
        (Ok {| hud_state := hs; gazepoint := gazes w;
               _handler := _HUDDataCollect (List.length (threads w)) p |},
         w')
    | (Raise e, w') => (Raise e, w')
    end.
Proof.
  unfold HUDLearn_init, bind. cbn -[datafile_path].
  unfold HUDDataCollect_init, bind. cbn -[datafile_path].
  fold (before_datafile_path w).
  destruct (datafile_path G (before_datafile_path w)) as [[p | e] w'];
    reflexivity.
Qed.

(** What a construction in collect mode that returns has done. *)
Lemma HUDLearn_init_collect (G : Globals) (HudState : Type) (hs : HudState)
    (w w' : World) (self : HUDLearn HudState) :
  HUDLearn_init G hs (lit "collect") w = (Ok self, w') ->
  hud_state self = hs /\
  gazepoint self = gazes w /\
  async_proc (_handler self) = List.length (threads w) /\
  _logpath (_handler self)
    = path_str (joinpath (logdir G) (parse_path (NOW G ++ lit ".csv"))) /\
  threads w' = threads w ++ [Initial] /\
  gazes w' = S (gazes w) /\
  ((os_exists (os w) (dirs w) (logdir G) = Ok true /\
    dirs w' = dirs w /\
    trace w' = trace w ++
      [EyeTrackerGaze_new (gazes w); Listener_new (List.length (threads w));
       Path_exists (logdir G)]) \/
   (os_exists (os w) (dirs w) (logdir G) = Ok false /\
    dirs w' = dirs w ++ [logdir G] /\
    trace w' = trace w ++
      [EyeTrackerGaze_new (gazes w); Listener_new (List.length (threads w));
       Path_exists (logdir G); Os_makedirs (logdir G)])).
Proof.
  rewrite HUDLearn_init_collect_eq.
  destruct (datafile_path G (before_datafile_path w)) as [[p | e] w1] eqn:Hd;
    [| discriminate].
  intros H. injection H as <- <-. cbn.
  pose proof (datafile_path_value G _ Hd) as Hp.
  destruct (datafile_path_world G _ Hd) as [(Hex & ->) | (Hex & _ & ->)];
    cbn in Hex |- *; (split; [reflexivity |]); (split; [reflexivity |]);
    (split; [reflexivity |]); (split; [exact Hp |]);
    (split; [reflexivity |]); (split; [reflexivity |]).
  - left. split; [exact Hex |]. split; [reflexivity |].
    rewrite <- !app_assoc. reflexivity.
  - right. split; [exact Hex |]. split; [reflexivity |].
    rewrite <- !app_assoc. reflexivity.
Qed.

(** C9, as the code has it.  The log path of a session is fixed when its
    handler is constructed: the configured root directory joined with the
    configured HUD subdirectory and with the file name [NOW] followed by
    [.csv], where [NOW] is the time at which the module was imported,
    printed down to the minute.  A construction that returns has asked
    whether the directory is there and, on the answer no, has made it
    with [os.makedirs]; every flush of the session goes to that one
    path. *)
Theorem log_path_is_named_at_import
    (conf : list (string * pystr)) (w0 w1 : World) (G : Globals)
    (HudState : Type) (hs : HudState) (w w' : World)
    (self : HUDLearn HudState) :
  import_module conf w0 = (Ok G, w1) ->
  HUDLearn_init G hs (lit "collect") w = (Ok self, w') ->
  conf_get conf "EVENTLOG_RAW_ROOTDIR" = Ok (LOG_RAW_ROOTDIR G) /\
  conf_get conf "EVENTLOG_HUD_SUBDIR" = Ok (LOG_HUD_SUBDIR G) /\
  (forall t, same_minute t (clock w0) -> NOW G = strftime_Ymd_HM t) /\
  _logpath (_handler self) =
    path_str (joinpath
                (joinpath (parse_path (LOG_RAW_ROOTDIR G))
                          (parse_path (LOG_HUD_SUBDIR G)))
                (parse_path (NOW G ++ lit ".csv"))) /\
  ((os_exists (os w) (dirs w) (logdir G) = Ok true /\
    dirs w' = dirs w /\
    effects_of (HUDLearn_init G hs (lit "collect")) w =
      [EyeTrackerGaze_new (gazes w); Listener_new (List.length (threads w));
       Path_exists (logdir G)]) \/
   (os_exists (os w) (dirs w) (logdir G) = Ok false /\
    dirs w' = dirs w ++ [logdir G] /\
    effects_of (HUDLearn_init G hs (lit "collect")) w =
      [EyeTrackerGaze_new (gazes w); Listener_new (List.length (threads w));
       Path_exists (logdir G); Os_makedirs (logdir G)])) /\
  (forall (str_lower : pystr -> pystr) (Coord : Type)
          (btn_centroid : HudState -> PyVal -> Result (Coord * Coord))
          (str_coord : Coord -> pystr) (str_val : PyVal -> pystr)
          (key : PyVal) (w2 : World) (e : Effect),
     In e (effects_of (_on_keypress str_lower btn_centroid str_coord
                                    str_val self key) w2) ->
     exists lbl,
       e = Gaze_to_csv (gazepoint self) (_logpath (_handler self)) lbl).
Proof.
  intros Himp Hinit.
  destruct (import_module_spec conf w0 Himp) as (Hr & Hs & Hnow & _).
  destruct (HUDLearn_init_collect G hs w Hinit)
    as (_ & _ & _ & Hp & _ & _ & Hfs).
  split; [exact Hr |]. split; [exact Hs |]. split; [| split; [| split]].
  - intros t (Hy & Hm & Hd & Hh & Hmin). rewrite Hnow. symmetry.
    apply strftime_minute_resolution; assumption.
  - exact Hp.
  - unfold effects_of. rewrite Hinit. cbn [snd].
    destruct Hfs as [(Hex & Hd & Ht) | (Hex & Hd & Ht)]; [left | right];
      (split; [exact Hex |]); (split; [exact Hd |]);
      rewrite Ht; apply skipn_app_exact.
  - intros str_lower Coord btn_centroid str_coord str_val key w2 e.
    apply on_keypress_one_file.
Qed.

Lemma log_path_is_named_at_import_witness :
  _logpath (_handler Instance.session0)
    = lit "/opt/app/data/hud/2020-03-01-09-05.csv" /\
  effects_of (Instance.HUDLearn_init Instance.panel0 (lit "collect"))
             (set_clock (Instance.at_time 11 0 10) Instance.world0) =
    [EyeTrackerGaze_new 0; Listener_new 0;
     Path_exists (logdir Instance.G0); Os_makedirs (logdir Instance.G0)].
Proof.
  destruct (@log_path_is_named_at_import Instance.conf Instance.world0
              Instance.world0 Instance.G0 Instance.Panel Instance.panel0
              (set_clock (Instance.at_time 11 0 10) Instance.world0)
              (snd (Instance.HUDLearn_init Instance.panel0 (lit "collect")
                      (set_clock (Instance.at_time 11 0 10) Instance.world0)))
              Instance.session0 eq_refl eq_refl)
    as (_ & _ & _ & Hp & Hfs & _).
  split; [rewrite Hp; reflexivity |].
  destruct Hfs as [(Hex & _) | (_ & _ & He)]; [discriminate Hex | exact He].
Defined.

(** C9, as the spec words it, fails: the module is imported at 09:05 and
    the session is constructed and started at 11:00; its log file bears
    the time of the import, not the time of the start. *)
Lemma log_name_is_not_the_start_time :
  exists G w1 self w2 l w3,
    import_module Instance.conf Instance.world0 = (Ok G, w1) /\
    HUDLearn_init G Instance.panel0 (lit "collect")
      (set_clock (Instance.at_time 11 0 10) w1) = (Ok self, w2) /\
    start self w2 = (Ok l, w3) /\
    running w3 self = true /\
    clock w2 = Instance.at_time 11 0 10 /\
    _logpath (_handler self) = lit "/opt/app/data/hud/2020-03-01-09-05.csv" /\
    spec_logpath G (clock w2) = lit "/opt/app/data/hud/2020-03-01-11-00.csv" /\
    _logpath (_handler self) <> spec_logpath G (clock w2).
Proof.
  do 6 eexists. split; [reflexivity |]. split; [reflexivity |].
  split; [reflexivity |]. repeat (split; [reflexivity |]).
  vm_compute. discriminate.
Qed.

End LogPath.

(* ================================================================= *)
(** ** More on the key identifier: its failures and its values *)

Module KeyFacts.

Import App AppFacts.

Lemma char_code_AttributeError (str_lower : pystr -> pystr) (key : PyVal) :
  char_code str_lower key = Raise AttributeError -> lacks_char key = true.
Proof.
  unfold char_code, lacks_char, rbind.
  destruct (getattr key "char") as [v | e]; [| reflexivity].
  destruct v as [| z | s | attrs]; cbn; try reflexivity.
  - destruct (str_lower s) as [| c [| c' rest]]; discriminate.
  - destruct (assoc "lower" attrs); [discriminate | reflexivity].
Qed.

Lemma char_code_raises (str_lower : pystr -> pystr) (key : PyVal) (e : Exc) :
  char_code str_lower key = Raise e -> e = AttributeError \/ e = TypeError.
Proof.
  unfold char_code, rbind.
  destruct (getattr key "char") as [v | e'] eqn:Hc.
  - destruct v as [| z | s | attrs]; cbn; try (intros H; injection H as <-;
      left; reflexivity).
    + destruct (str_lower s) as [| c [| c' rest]]; intros H;
        try discriminate; injection H as <-; right; reflexivity.
    + destruct (assoc "lower" attrs); intros H; injection H as <-;
        [right | left]; reflexivity.
  - intros H. injection H as <-. left. exact (getattr_raises _ _ Hc).
Qed.

Lemma vk_fallback_raises (key : PyVal) (e : Exc) :
  vk_fallback key = Raise e -> e = AttributeError.
Proof.
  unfold vk_fallback, try_except_AttributeError.
  destruct (value_vk key) as [n | e'] eqn:Hv; [discriminate |].
  rewrite (value_vk_raises key Hv). cbn. apply getattr_raises.
Qed.

(** X1.  [key_to_id] raises [AttributeError] exactly on a key of none of
    the three shapes: no character, no nested [value.vk], and no [vk]
    field of its own. *)
Theorem key_to_id_AttributeError_iff
    (str_lower : pystr -> pystr) (key : PyVal) :
  key_to_id str_lower key = Raise AttributeError <->
  lacks_char key = true /\ has_value_vk key = false /\
  getattr key "vk" = Raise AttributeError.
Proof.
  split.
  - intros H. unfold key_to_id, try_except_AttributeError in H.
    destruct (char_code str_lower key) as [n | e] eqn:Hc; [discriminate |].
    destruct (is_AttributeError e) eqn:He.
    + destruct e; try discriminate.
      split; [exact (char_code_AttributeError str_lower key Hc) |].
      unfold vk_fallback, try_except_AttributeError in H.
      unfold has_value_vk.
      destruct (value_vk key) as [m | e'] eqn:Hv; [discriminate |].
      split; [reflexivity |].
      rewrite (value_vk_raises key Hv) in H. exact H.
    + injection H as ->. discriminate.
  - intros (Hno & Hnv & Hvk).
    rewrite (key_to_id_no_char str_lower key
               (lacks_char_char_code str_lower key Hno)).
    unfold vk_fallback. unfold has_value_vk in Hnv.
    destruct (value_vk key) as [m | e'] eqn:Hv; [discriminate |].
    rewrite (value_vk_raises key Hv). exact Hvk.
Qed.

Lemma key_to_id_AttributeError_iff_witness :
  key_to_id lower_basic (PyObj [("name", PyStr (lit "x"))])
    = Raise AttributeError.
Proof.
  apply (proj2 (key_to_id_AttributeError_iff lower_basic
                  (PyObj [("name", PyStr (lit "x"))]))).
  repeat split.
Defined.

(** X2.  [key_to_id] raises nothing but [AttributeError] and [TypeError],
    and it raises [TypeError] exactly when the key has a character that
    [ord] refuses; the fall-back on [vk] is not tried then. *)
Theorem key_to_id_TypeError_iff
    (str_lower : pystr -> pystr) (key : PyVal) :
  (forall e, key_to_id str_lower key = Raise e ->
             e = AttributeError \/ e = TypeError) /\
  (key_to_id str_lower key = Raise TypeError <-> char_refused str_lower key).
Proof.
  split.
  - intros e H. unfold key_to_id, try_except_AttributeError in H.
    destruct (char_code str_lower key) as [n | e'] eqn:Hc; [discriminate |].
    destruct (is_AttributeError e') eqn:He.
    + left. exact (vk_fallback_raises key H).
    + injection H as <-. exact (char_code_raises str_lower key Hc).
  - split.
    + intros H. unfold key_to_id, try_except_AttributeError in H.
      destruct (char_code str_lower key) as [n | e'] eqn:Hc; [discriminate |].
      destruct (is_AttributeError e') eqn:He.
      * pose proof (vk_fallback_raises key H). discriminate.
      * injection H as ->. unfold char_code, rbind in Hc.
        destruct (getattr key "char") as [v | e''] eqn:Hg.
        -- destruct v as [| z | s | attrs]; cbn in Hc; try discriminate.
           ++ left. exists s. split; [exact Hg |].
              destruct (str_lower s) as [| c [| c' rest]]; cbn;
                try discriminate; lia.
           ++ right. destruct (assoc "lower" attrs) as [v |] eqn:Ha;
                [| discriminate].
              exists attrs, v. split; [exact Hg | exact Ha].
        -- injection Hc as ->. pose proof (getattr_raises _ _ Hg).
           discriminate.
    + intros [(s & Hs & Hlen) | (attrs & v & Ha & Hl)];
        unfold key_to_id, char_code; rewrite ?Hs, ?Ha; cbn.
      * destruct (str_lower s) as [| c [| c' rest]]; cbn in *;
          try reflexivity. contradiction.
      * rewrite Hl. reflexivity.
Qed.

Lemma key_to_id_TypeError_iff_witness :
  key_to_id lower_basic (Instance.KeyCode_from_char 304%N) = Raise TypeError.
Proof.
  apply (proj2 (proj2 (key_to_id_TypeError_iff lower_basic
                         (Instance.KeyCode_from_char 304%N)))).
  left. exists [304%N]. split; [reflexivity | cbn; lia].
Defined.

(** X3.  Two keys whose characters have the same lowercase get the same
    id, whatever their [value] and [vk] fields hold: the shifted and the
    plain letter are one key for the collector. *)
Theorem key_to_id_ignores_case
    (str_lower : pystr -> pystr) (key key' : PyVal) (s s' : pystr) :
  getattr key "char" = Ok (PyStr s) ->
  getattr key' "char" = Ok (PyStr s') ->
  str_lower s = str_lower s' ->
  key_to_id str_lower key = key_to_id str_lower key'.
Proof.
  intros Hc Hc' Hl. unfold key_to_id, char_code.
  rewrite Hc, Hc'. cbn. rewrite Hl.
  destruct (str_lower s') as [| c [| c' rest]]; reflexivity.
Qed.

Lemma key_to_id_ignores_case_witness :
  key_to_id lower_basic
    (PyObj [("vk", PyInt 38); ("char", PyStr [65%N])]) =
  key_to_id lower_basic (Instance.KeyCode_from_char 97%N).
Proof.
  apply (@key_to_id_ignores_case lower_basic
           (PyObj [("vk", PyInt 38); ("char", PyStr [65%N])])
           (Instance.KeyCode_from_char 97%N) [65%N] [97%N]);
    reflexivity.
Defined.

End KeyFacts.

(* ================================================================= *)
(** ** More on the session: failures, restarts and several sessions *)

Module SessionFacts.

Import HudLearn WorldFacts Lifecycle Collector LogPath.

Lemma nth_update_other {A} (i j : nat) (x d : A) (l : list A) :
  i <> j -> nth j (update i x l) d = nth j l d.
Proof.
  revert i j. induction l as [| y l IH]; intros [| i] [| j] Hne; cbn;
    try reflexivity; try contradiction.
  apply IH. congruence.
Qed.

Lemma nth_fresh {A} (l : list A) (x d : A) :
  nth (List.length l) (l ++ [x]) d = x.
Proof. induction l as [| y l IH]; [reflexivity | exact IH]. Qed.

(** [datafile_path] leaves the threads and the gaze sources alone and
    only adds to the trace, whether it returns or raises. *)
Lemma datafile_path_frame (G : Globals) (w : World) :
  threads (snd (datafile_path G w)) = threads w /\
  gazes (snd (datafile_path G w)) = gazes w /\
  exists es, trace (snd (datafile_path G w)) = trace w ++ es.
Proof.
  unfold datafile_path, bind, path_exists, os_makedirs, ret.
  destruct (os_exists (os w) (dirs w) (logdir G)) as [[|] | e]; cbn.
  - repeat split. eexists. reflexivity.
  - destruct (os_makedirs_error _ _ _); cbn; repeat split;
      eexists; rewrite <- app_assoc; reflexivity.
  - repeat split. eexists. reflexivity.
Qed.

Section Failures.

Variable str_lower : pystr -> pystr.
Variable HudState : Type.
Variable Coord : Type.
Variable btn_centroid : HudState -> PyVal -> Result (Coord * Coord).
Variable str_coord : Coord -> pystr.
Variable str_val : PyVal -> pystr.

(** X4.  When the key id cannot be computed, or no button answers to it,
    the exception leaves the handler as it is and nothing has been done:
    the gaze source is not flushed and the world is unchanged. *)
Theorem on_keypress_failure_flushes_nothing
    (self : HUDLearn HudState) (key : PyVal) (w : World) (e : Exc) :
  App.key_to_id str_lower key = Raise e \/
  (exists key_id, App.key_to_id str_lower key = Ok key_id /\
                  btn_centroid (hud_state self) key_id = Raise e) ->
  _on_keypress str_lower btn_centroid str_coord str_val self key w
    = (Raise e, w).
Proof.
  unfold _on_keypress, bind, lift.
  intros [Hk | (key_id & Hk & Hb)]; rewrite Hk; [reflexivity |].
  rewrite Hb. reflexivity.
Qed.

End Failures.

Lemma on_keypress_failure_flushes_nothing_witness :
  Instance._on_keypress Instance.session0 (Instance.KeyCode_from_char 122%N)
                        Instance.running_world0
    = (Raise (KeyError (lit "122")), Instance.running_world0).
Proof.
  apply (@on_keypress_failure_flushes_nothing lower_basic Instance.Panel Z
           Instance.btn_centroid str_int Instance.str_val Instance.session0
           (Instance.KeyCode_from_char 122%N) Instance.running_world0
           (KeyError (lit "122"))).
  right. exists (PyInt 122). split; reflexivity.
Defined.

Lemma start_stopped_thread (HudState : Type) (self : HUDLearn HudState)
    (w : World) :
  thread_state w (async_proc (_handler self)) = Stopped ->
  start self w =
    (Raise RESTART_ERROR,
     emitted w [Gaze_open (gazepoint self); Gaze_start (gazepoint self)]).
Proof.
  unfold start, bind, is_alive. intros H. rewrite H.
  unfold listener_start, emit, emitted, thread_state in *.
  cbn. rewrite H. cbn. rewrite <- !app_assoc. reflexivity.
Qed.

(** X5.  A session cannot be restarted.  [start()] called after [stop()]
    while the listener thread is still alive only prints the warning;
    called once that thread has ended it raises [RuntimeError], the
    listener being a thread and a thread starting once, and it does so
    after it has opened and started the gaze source again; the session is
    not running. *)
Theorem start_after_stop_raises
    (HudState : Type) (self : HUDLearn HudState) (w : World) :
  running w self = true ->
  start self (snd (stop self w)) =
    (Ok (async_proc (_handler self)),
     emitted (snd (stop self w)) [Print START_WARNING]) /\
  fst (start self (thread_ends (async_proc (_handler self))
                               (snd (stop self w))))
    = Raise RESTART_ERROR /\
  effects_of (start self)
             (thread_ends (async_proc (_handler self)) (snd (stop self w)))
    = [Gaze_open (gazepoint self); Gaze_start (gazepoint self)] /\
  running (snd (start self (thread_ends (async_proc (_handler self))
                                        (snd (stop self w)))))
          self = false.
Proof.
  intros Hrun.
  pose proof (stop_keeps_alive self w Hrun) as Halive.
  split; [apply start_running; exact Halive |].
  pose proof (thread_ends_state self (snd (stop self w)) Halive) as Hst.
  set (w1 := thread_ends (async_proc (_handler self)) (snd (stop self w)))
    in *.
  unfold effects_of. rewrite (start_stopped_thread self w1 Hst).
  split; [reflexivity | split].
  - cbn [snd emitted trace]. apply skipn_app_exact.
  - change (is_started (thread_state w1 (async_proc (_handler self)))
            = false).
    rewrite Hst. reflexivity.
Qed.

Lemma start_after_stop_raises_witness :
  effects_of (start Instance.session0)
             (snd (stop Instance.session0 Instance.running_world0))
    = [Print START_WARNING] /\
  fst (start Instance.session0
         (thread_ends 0 (snd (stop Instance.session0
                                   Instance.running_world0))))
    = Raise RESTART_ERROR /\
  effects_of (start Instance.session0)
             (thread_ends 0 (snd (stop Instance.session0
                                       Instance.running_world0)))
    = [Gaze_open 0; Gaze_start 0].
Proof.
  destruct (@start_after_stop_raises Instance.Panel Instance.session0
              Instance.running_world0 eq_refl) as (H0 & H1 & H2 & _).
  split; [| split; [exact H1 | exact H2]].
  unfold effects_of. rewrite H0. reflexivity.
Defined.

(** X6.  Two calls in a row.  After [start()] on a session whose
    listener was never started, the next [start()] only prints its
    warning.  After [stop()] on a running session, the next [stop()]
    only prints its warning once the listener thread has ended; while
    that thread is still alive it stops and closes the gaze source and
    asks the listener to stop a second time. *)
Theorem second_call_only_warns
    (HudState : Type) (self : HUDLearn HudState) (w : World) :
  (thread_state w (async_proc (_handler self)) = Initial ->
   async_proc (_handler self) < List.length (threads w) ->
   start self (snd (start self w)) =
     (Ok (async_proc (_handler self)),
      emitted (snd (start self w)) [Print START_WARNING])) /\
  (running w self = true ->
   stop self (thread_ends (async_proc (_handler self)) (snd (stop self w))) =
     (Ok (async_proc (_handler self)),
      emitted (thread_ends (async_proc (_handler self)) (snd (stop self w)))
              [Print STOP_WARNING]) /\
   effects_of (stop self) (snd (stop self w)) =
     [Gaze_stop (gazepoint self); Gaze_close (gazepoint self);
      Listener_stop (async_proc (_handler self))]).
Proof.
  split.
  - intros Hinit Hlt. apply start_running.
    apply start_makes_running; assumption.
  - intros Hrun. split.
    + apply stop_stopped. apply thread_ends_not_running.
    + pose proof (stop_keeps_alive self w Hrun) as Halive.
      unfold effects_of. rewrite (stop_running self _ Halive).
      cbn [snd emitted trace]. apply skipn_app_exact.
Qed.

Lemma second_call_only_warns_witness :
  effects_of (start Instance.session0) Instance.running_world0
    = [Print START_WARNING] /\
  effects_of (stop Instance.session0)
             (thread_ends 0 (snd (stop Instance.session0
                                       Instance.running_world0)))
    = [Print STOP_WARNING] /\
  effects_of (stop Instance.session0)
             (snd (stop Instance.session0 Instance.running_world0))
    = [Gaze_stop 0; Gaze_close 0; Listener_stop 0].
Proof.
  destruct (@second_call_only_warns Instance.Panel Instance.session0
              Instance.constructed_world0) as (H1 & _).
  destruct (@second_call_only_warns Instance.Panel Instance.session0
              Instance.running_world0) as (_ & H2).
  destruct (H2 eq_refl) as (H3 & H4).
  split; [| split; [| exact H4]].
  - unfold effects_of.
    change Instance.running_world0
      with (snd (start Instance.session0 Instance.constructed_world0)).
    rewrite (H1 eq_refl (Nat.lt_0_succ 0)). reflexivity.
  - change (async_proc (_handler Instance.session0)) with 0 in H3.
    unfold effects_of. rewrite H3. reflexivity.
Defined.

(** X7.  A session that the construction in collect mode returns is not
    running, and the next [start()] runs it: the gaze source is opened
    and started, the listener is started, and the session is running
    when [start()] returns its handle. *)
Theorem constructed_session_starts
    (G : Globals) (HudState : Type) (hs : HudState) (w w' : World)
    (self : HUDLearn HudState) :
  HUDLearn_init G hs (lit "collect") w = (Ok self, w') ->
  running w' self = false /\
  fst (start self w') = Ok (async_proc (_handler self)) /\
  effects_of (start self) w' =
    [Gaze_open (gazepoint self); Gaze_start (gazepoint self);
     Listener_start (async_proc (_handler self)); Sleep 1] /\
  running (snd (start self w')) self = true.
Proof.
  intros Hinit.
  destruct (HUDLearn_init_collect G hs w Hinit)
    as (_ & _ & Hl & _ & Hts & _).
  assert (Hst : thread_state w' (async_proc (_handler self)) = Initial).
  { unfold thread_state. rewrite Hts, Hl. apply nth_fresh. }
  assert (Hlt : async_proc (_handler self) < List.length (threads w')).
  { rewrite Hts, Hl, length_app. cbn. lia. }
  split.
  { unfold running. rewrite Hst. reflexivity. }
  split; [rewrite (start_initial self w' Hst); reflexivity |]. split.
  - unfold effects_of. rewrite (start_initial self w' Hst). cbn.
    apply skipn_app_exact.
  - apply start_makes_running; assumption.
Qed.

Lemma constructed_session_starts_witness :
  running Instance.constructed_world0 Instance.session0 = false /\
  running (snd (start Instance.session0 Instance.constructed_world0))
          Instance.session0 = true.
Proof.
  destruct (@constructed_session_starts Instance.G0 Instance.Panel
              Instance.panel0 Instance.world0 Instance.constructed_world0
              Instance.session0 eq_refl) as (H1 & _ & _ & H2).
  split; [exact H1 | exact H2].
Defined.

(** X8.  The construction returns a session for no tag but [collect]:
    whenever it returns one, the tag was [collect]; every other tag, the
    two reserved ones included, ends in an exception. *)
Theorem only_collect_yields_a_session
    (G : Globals) (HudState : Type) (hs : HudState) (mode : pystr)
    (w : World) (self : HUDLearn HudState) :
  fst (HUDLearn_init G hs mode w) = Ok self ->
  mode = lit "collect".
Proof.
  intros H. unfold HUDLearn_init, bind, EyeTrackerGaze in H.
  unfold handler_for in H.
  destruct (pystr_eqb mode (lit "collect")) eqn:Ec.
  - apply pystr_eqb_eq. exact Ec.
  - destruct (pystr_eqb mode (lit "train")); [discriminate |].
    destruct (pystr_eqb mode (lit "infer")); discriminate.
Qed.

Lemma only_collect_yields_a_session_witness :
  lit "collect" = lit "collect".
Proof.
  exact (@only_collect_yields_a_session Instance.G0 Instance.Panel
           Instance.panel0 (lit "collect") Instance.world0
           Instance.session0 eq_refl).
Defined.

(** X9.  All collect sessions of one process write to one file: two
    sessions the construction returns from the same module, in any two
    worlds and at any two times, have the same log path. *)
Theorem sessions_share_the_log_path
    (G : Globals) (HudState : Type) (hs1 hs2 : HudState)
    (w1 w1' w2 w2' : World) (self1 self2 : HUDLearn HudState) :
  HUDLearn_init G hs1 (lit "collect") w1 = (Ok self1, w1') ->
  HUDLearn_init G hs2 (lit "collect") w2 = (Ok self2, w2') ->
  _logpath (_handler self1) = _logpath (_handler self2).
Proof.
  intros H1 H2.
  destruct (HUDLearn_init_collect G hs1 w1 H1) as (_ & _ & _ & -> & _).
  destruct (HUDLearn_init_collect G hs2 w2 H2) as (_ & _ & _ & -> & _).
  reflexivity.
Qed.

Lemma sessions_share_the_log_path_witness :
  _logpath (_handler Instance.session0)
    = _logpath (_handler Instance.session1).
Proof.
  exact (@sessions_share_the_log_path Instance.G0 Instance.Panel
           Instance.panel0 Instance.panel0
           Instance.world0 Instance.constructed_world0
           (set_clock (Instance.at_time 11 0 10) Instance.constructed_world0)
           (snd (Instance.HUDLearn_init Instance.panel0 (lit "collect")
                   (set_clock (Instance.at_time 11 0 10)
                              Instance.constructed_world0)))
           Instance.session0 Instance.session1 eq_refl eq_refl).
Defined.

(** X10.  Two sessions the construction returns one after the other have
    their own listener and their own gaze source, and starting the first
    leaves the second not running. *)
Theorem sessions_are_independent
    (G : Globals) (HudState : Type) (hs1 hs2 : HudState)
    (w w1 w2 : World) (self1 self2 : HUDLearn HudState) :
  HUDLearn_init G hs1 (lit "collect") w = (Ok self1, w1) ->
  HUDLearn_init G hs2 (lit "collect") w1 = (Ok self2, w2) ->
  async_proc (_handler self1) <> async_proc (_handler self2) /\
  gazepoint self1 <> gazepoint self2 /\
  running (snd (start self1 w2)) self1 = true /\
  running (snd (start self1 w2)) self2 = false.
Proof.
  intros H1 H2.
  destruct (HUDLearn_init_collect G hs1 w H1)
    as (_ & Hg1 & Hl1 & _ & Hts1 & Hgz1 & _).
  destruct (HUDLearn_init_collect G hs2 w1 H2)
    as (_ & Hg2 & Hl2 & _ & Hts2 & _).
  assert (Hne : async_proc (_handler self1) <> async_proc (_handler self2)).
  { rewrite Hl1, Hl2, Hts1, length_app. cbn. lia. }
  assert (Hinit : thread_state w2 (async_proc (_handler self1)) = Initial).
  { unfold thread_state. rewrite Hts2, Hts1, Hl1.
    rewrite app_nth1 by (rewrite length_app; cbn; lia). apply nth_fresh. }
  assert (Hlt : async_proc (_handler self1) < List.length (threads w2)).
  { rewrite Hts2, Hts1, Hl1, !length_app. cbn. lia. }
  split; [exact Hne |]. split; [rewrite Hg1, Hg2, Hgz1; lia |]. split.
  - apply start_makes_running; assumption.
  - rewrite (start_initial self1 w2 Hinit). unfold running, thread_state.
    cbn. rewrite nth_update_other by exact Hne.
    rewrite Hts2, Hl2. rewrite nth_fresh. reflexivity.
Qed.

Lemma sessions_are_independent_witness :
  async_proc (_handler Instance.session0)
    <> async_proc (_handler Instance.session1) /\
  running (snd (start Instance.session0 Instance.constructed_world1))
          Instance.session1 = false.
Proof.
  destruct (@sessions_are_independent Instance.G0 Instance.Panel
              Instance.panel0 Instance.panel0 Instance.world0
              Instance.constructed_world0 Instance.constructed_world1
              Instance.session0 Instance.session1 eq_refl eq_refl)
    as (H1 & _ & _ & H2).
  split; [exact H1 | exact H2].
Defined.

(** X17.  Every construction, whatever the mode tag and whether it ends
    in a session or in an exception, constructs one gaze source, first of
    all; a tag other than [collect] leaves no listener and no directory
    behind. *)
Theorem every_construction_makes_a_gaze_source
    (G : Globals) (HudState : Type) (hs : HudState) (mode : pystr)
    (w : World) :
  gazes (snd (HUDLearn_init G hs mode w)) = S (gazes w) /\
  (exists rest,
     effects_of (HUDLearn_init G hs mode) w
       = EyeTrackerGaze_new (gazes w) :: rest) /\
  (mode <> lit "collect" ->
   threads (snd (HUDLearn_init G hs mode w)) = threads w /\
   dirs (snd (HUDLearn_init G hs mode w)) = dirs w /\
   effects_of (HUDLearn_init G hs mode) w = [EyeTrackerGaze_new (gazes w)]).
Proof.
  destruct (pystr_eqb mode (lit "collect")) eqn:Ec.
  - apply pystr_eqb_eq in Ec. subst mode.
    unfold effects_of. rewrite HUDLearn_init_collect_eq.
    destruct (datafile_path_frame G (before_datafile_path w))
      as (_ & Hg & es & Ht).
    destruct (datafile_path G (before_datafile_path w)) as [[p | e] w1];
      cbn in Hg, Ht |- *; (split; [exact Hg |]);
      (split; [| intros Hne; contradiction]);
      rewrite Ht, <- !app_assoc, skipn_app_exact; eexists; reflexivity.
  - unfold effects_of, HUDLearn_init, bind, EyeTrackerGaze, handler_for.
    rewrite Ec.
    destruct (pystr_eqb mode (lit "train")); [| destruct (pystr_eqb mode (lit "infer"))];
      cbn; rewrite skipn_app_exact; repeat split; eexists; reflexivity.
Qed.

Lemma every_construction_makes_a_gaze_source_witness :
  effects_of (Instance.HUDLearn_init Instance.panel0 (lit "Collect"))
             Instance.world0 = [EyeTrackerGaze_new 0].
Proof.
  destruct (@every_construction_makes_a_gaze_source Instance.G0
              Instance.Panel Instance.panel0 (lit "Collect") Instance.world0)
    as (_ & _ & H).
  destruct H as (_ & _ & H); [cbn; discriminate | exact H].
Defined.

(** X11.  [start()], [stop()] and a key press never ask for or make a
    directory and never construct a listener or a gaze source, in
    whatever state they are called and whether they return or raise. *)
Theorem lifecycle_calls_keep_the_rest
    (str_lower : pystr -> pystr) (HudState Coord : Type)
    (btn_centroid : HudState -> PyVal -> Result (Coord * Coord))
    (str_coord : Coord -> pystr) (str_val : PyVal -> pystr)
    (self : HUDLearn HudState) (key : PyVal) (w : World) :
  let kept {A} (m : M A) :=
    dirs (snd (m w)) = dirs w /\ gazes (snd (m w)) = gazes w /\
    List.length (threads (snd (m w))) = List.length (threads w) /\
    forallb (fun e => negb (constructs e)) (effects_of m w) = true in
  kept (start self) /\
  kept (stop self) /\
  kept (_on_keypress str_lower btn_centroid str_coord str_val self key).
Proof.
  cbn zeta. unfold effects_of. split; [| split].
  - destruct (thread_state w (async_proc (_handler self))) eqn:Hst.
    + rewrite (start_initial self w Hst). cbn. rewrite update_length.
      rewrite skipn_app_exact. repeat split.
    + assert (Hrun : running w self = true)
        by (unfold running; rewrite Hst; reflexivity).
      rewrite (start_running self w Hrun). cbn.
      rewrite skipn_app_exact. repeat split.
    + assert (Hrun : running w self = true)
        by (unfold running; rewrite Hst; reflexivity).
      rewrite (start_running self w Hrun). cbn.
      rewrite skipn_app_exact. repeat split.
    + rewrite (start_stopped_thread self w Hst). cbn.
      rewrite skipn_app_exact. repeat split.
  - destruct (running w self) eqn:Hrun.
    + rewrite (stop_running self w Hrun). cbn.
      rewrite skipn_app_exact.
      destruct (thread_state w (async_proc (_handler self)));
        rewrite ?update_length; repeat split.
    + rewrite (stop_stopped self w Hrun). cbn.
      rewrite skipn_app_exact. repeat split.
  - unfold _on_keypress, bind, lift, emit.
    destruct (App.key_to_id str_lower key) as [key_id | e]; cbn;
      [| rewrite skipn_all_exact; repeat split].
    destruct (btn_centroid (hud_state self) key_id) as [c | e]; cbn;
      [rewrite skipn_app_exact | rewrite skipn_all_exact]; repeat split.
Qed.

End SessionFacts.

(* ================================================================= *)
(** ** More on the log path and on the import *)

Module PathFacts.

Import HudLearn WorldFacts Lifecycle LogPath.

Lemma lit_uint_no_sep (d : Decimal.uint) :
  no_sep (lit (NilEmpty.string_of_uint d)).
Proof.
  unfold no_sep.
  induction d; cbn; constructor; try exact IHd; unfold SEP; discriminate.
Qed.

Lemma str_int_no_sep (z : Z) : no_sep (str_int z).
Proof.
  unfold str_int, NilZero.string_of_int, NilZero.string_of_uint.
  destruct (Z.to_int z) as [d | d].
  - destruct d; try apply lit_uint_no_sep.
    cbn. constructor; [unfold SEP; discriminate | constructor].
  - cbn. constructor; [unfold SEP; discriminate |].
    destruct d; try apply lit_uint_no_sep.
    cbn. constructor; [unfold SEP; discriminate | constructor].
Qed.

Lemma zfill_no_sep (n : nat) (s : pystr) : no_sep s -> no_sep (zfill n s).
Proof.
  intros H. unfold zfill, no_sep. apply Forall_app. split; [| exact H].
  induction (n - List.length s) as [| k IH]; cbn; constructor;
    [unfold SEP; discriminate | exact IH].
Qed.

Lemma no_sep_app (a b : pystr) : no_sep a -> no_sep b -> no_sep (a ++ b).
Proof. intros Ha Hb. apply Forall_app. split; assumption. Qed.

Lemma no_sep_dash : no_sep (lit "-").
Proof. repeat constructor. unfold SEP. discriminate. Qed.

Lemma strftime_no_sep (t : datetime) : no_sep (strftime_Ymd_HM t).
Proof.
  unfold strftime_Ymd_HM.
  repeat first
    [ apply zfill_no_sep; apply str_int_no_sep
    | apply no_sep_dash
    | apply no_sep_app ].
Qed.

Lemma split_on_no_sep (s cur : pystr) :
  no_sep s -> split_on SEP s cur = [cur ++ s].
Proof.
  revert cur. induction s as [| c s IH]; intros cur H; cbn.
  - rewrite app_nil_r. reflexivity.
  - inversion H as [| ? ? Hc Hs]; subst.
    destruct (N.eqb c SEP) eqn:E; [apply N.eqb_eq in E; contradiction |].
    rewrite (IH (cur ++ [c]) Hs), <- app_assoc. reflexivity.
Qed.

(** A file name without a separator, longer than one character, is one
    relative component. *)
Lemma parse_path_name (s : pystr) :
  no_sep s -> 2 <= List.length s ->
  parse_path s = {| root := []; parts := [s] |}.
Proof.
  intros Hs Hlen. unfold parse_path, components.
  rewrite (split_on_no_sep [] Hs). cbn [app filter].
  destruct s as [| a [| b rest]]; cbn in Hlen; try lia.
  inversion Hs as [| ? ? Ha _]; subst.
  assert (Hroot : splitroot (a :: b :: rest) = []).
  { unfold splitroot. destruct a as [| p]; [reflexivity |].
    do 6 (try (destruct p as [p | p |]; try reflexivity)).
    exfalso. apply Ha. reflexivity. }
  rewrite Hroot. f_equal.
  cbn. destruct (N.eqb a 46); cbn; reflexivity.
Qed.

Lemma join_sep_snoc (l : list pystr) (x : pystr) :
  l <> [] -> join_sep (l ++ [x]) = join_sep l ++ [SEP] ++ x.
Proof.
  induction l as [| p l IH]; [contradiction |]. intros _.
  destruct l as [| q l]; [reflexivity |].
  cbn [app join_sep] in *. rewrite IH by discriminate.
  rewrite <- !app_assoc. reflexivity.
Qed.



(** X13.  The log file lies directly in the log directory and is named
    after the import time: for the globals an import binds, and a log
    directory that is not the bare root or the working directory, a path
    that [datafile_path] returns is that of the directory, a slash, the
    import time printed down to the minute, and [.csv]; the printed time
    holds no slash. *)
Theorem log_file_lies_in_logdir
    (conf : list (string * pystr)) (w0 w1 : World) (G : Globals)
    (w w' : World) (p : pystr) :
  import_module conf w0 = (Ok G, w1) ->
  parts (logdir G) <> [] ->
  datafile_path G w = (Ok p, w') ->
  no_sep (strftime_Ymd_HM (clock w0)) /\
  p = path_str (logdir G) ++ lit "/" ++ strftime_Ymd_HM (clock w0)
        ++ lit ".csv".
Proof.
  intros Himp Hparts Hd.
  split; [apply strftime_no_sep |].
  destruct (import_module_spec conf w0 Himp) as (_ & _ & Hnow & _).
  rewrite (datafile_path_value G w Hd), Hnow.
  assert (Hname : no_sep (strftime_Ymd_HM (clock w0) ++ lit ".csv")).
  { apply Forall_app. split; [apply strftime_no_sep |].
    cbn. repeat constructor; unfold SEP; discriminate. }
  rewrite (parse_path_name Hname)
    by (rewrite length_app; cbn; lia).
  unfold joinpath, is_absolute. cbn [root parts pystr_eqb negb].
  unfold path_str. cbn [parts root].
  destruct (parts (logdir G)) as [| q qs] eqn:Hp; [contradiction |].
  cbn [app]. rewrite <- Hp.
  change (q :: qs ++ [strftime_Ymd_HM (clock w0) ++ lit ".csv"])
    with ((q :: qs) ++ [strftime_Ymd_HM (clock w0) ++ lit ".csv"]).
  rewrite <- Hp, join_sep_snoc by (rewrite Hp; discriminate).
  rewrite <- !app_assoc. reflexivity.
Qed.

Lemma log_file_lies_in_logdir_witness :
  lit "/opt/app/data/hud/2020-03-01-09-05.csv"
    = path_str (logdir Instance.G0) ++ lit "/"
        ++ strftime_Ymd_HM (clock Instance.world0) ++ lit ".csv".
Proof.
  refine (proj2 (@log_file_lies_in_logdir Instance.conf Instance.world0
                   Instance.world0 Instance.G0 Instance.running_world0
                   (snd (datafile_path Instance.G0 Instance.running_world0))
                   (lit "/opt/app/data/hud/2020-03-01-09-05.csv")
                   eq_refl _ eq_refl)).
  cbn. discriminate.
Defined.

Lemma splitroot_absolute (rest : pystr) : splitroot (SEP :: rest) <> [].
Proof.
  unfold splitroot, SEP.
  destruct rest as [| b rest]; [discriminate |].
  destruct b as [| p]; [discriminate |].
  do 6 (try (destruct p as [p | p |]; try discriminate)).
  destruct rest as [| c rest]; [discriminate |].
  destruct c as [| q]; [discriminate |].
  do 6 (try (destruct q as [q | q |]; try discriminate)).
Qed.

(** X14.  A HUD subdirectory that starts with a slash takes the place of
    the root directory: the log directory is the subdirectory alone, and
    the log paths two reads return do not depend on the configured
    root. *)
Theorem absolute_subdir_discards_root
    (G G' : Globals) (rest : pystr) (w w1 w' w1' : World) (p p' : pystr) :
  LOG_HUD_SUBDIR G = SEP :: rest ->
  LOG_HUD_SUBDIR G' = LOG_HUD_SUBDIR G ->
  NOW G' = NOW G ->
  datafile_path G w = (Ok p, w1) ->
  datafile_path G' w' = (Ok p', w1') ->
  logdir G = parse_path (LOG_HUD_SUBDIR G) /\
  p' = p.
Proof.
  intros Hsub Hsame Hnow Hd Hd'.
  assert (Habs : forall H : Globals,
             LOG_HUD_SUBDIR H = SEP :: rest ->
             logdir H = parse_path (LOG_HUD_SUBDIR H)).
  { intros H HH. unfold logdir, joinpath, is_absolute. rewrite HH.
    cbn [parse_path root].
    rewrite (pystr_eqb_neq (@splitroot_absolute rest)). reflexivity. }
  split; [exact (Habs G Hsub) |].
  rewrite (datafile_path_value G w Hd), (datafile_path_value G' w' Hd').
  rewrite (Habs G Hsub), (Habs G' (eq_trans Hsame Hsub)), Hsame, Hnow.
  reflexivity.
Qed.

Lemma absolute_subdir_discards_root_witness :
  logdir {| LOG_RAW_ROOTDIR := lit "/elsewhere";
            LOG_HUD_SUBDIR := lit "/hud";
            NOW := lit "2020-03-01-09-05" |}
    = parse_path (lit "/hud") /\
  lit "/hud/2020-03-01-09-05.csv" = lit "/hud/2020-03-01-09-05.csv".
Proof.
  exact (@absolute_subdir_discards_root
           {| LOG_RAW_ROOTDIR := lit "/elsewhere";
              LOG_HUD_SUBDIR := lit "/hud";
              NOW := lit "2020-03-01-09-05" |}
           {| LOG_RAW_ROOTDIR := lit "/opt/app/data";
              LOG_HUD_SUBDIR := lit "/hud";
              NOW := lit "2020-03-01-09-05" |}
           (lit "hud") Instance.world0
           (snd (datafile_path
                   {| LOG_RAW_ROOTDIR := lit "/elsewhere";
                      LOG_HUD_SUBDIR := lit "/hud";
                      NOW := lit "2020-03-01-09-05" |} Instance.world0))
           Instance.world0
           (snd (datafile_path
                   {| LOG_RAW_ROOTDIR := lit "/opt/app/data";
                      LOG_HUD_SUBDIR := lit "/hud";
                      NOW := lit "2020-03-01-09-05" |} Instance.world0))
           (lit "/hud/2020-03-01-09-05.csv")
           (lit "/hud/2020-03-01-09-05.csv")
           eq_refl eq_refl eq_refl eq_refl eq_refl).
Defined.

End PathFacts.

(* ================================================================= *)
(** ** The other helpers of lib/py/app.py *)

Module HelperFacts.

Import App.

(** X15.  [seed_rand] seeds nothing for the seed [0], as for [None]: the
    seed is tested as a condition.  An integer from [1] to [2**32 - 1]
    seeds Python's generator and then numpy's, both with that integer.
    On any other integer Python's generator is seeded, and the call that
    should seed numpy's raises [ValueError]. *)
Theorem seed_rand_skips_zero (z : Z) :
  seed_rand None = ([], Ok tt) /\
  (fst (seed_rand (Some z)) = [] <-> z = 0%Z) /\
  (z = 0%Z -> seed_rand (Some z) = ([], Ok tt)) /\
  ((0 < z < 2 ^ 32)%Z ->
   seed_rand (Some z) = ([random_seed z; np_random_seed z], Ok tt)) /\
  ((z < 0 \/ 2 ^ 32 <= z)%Z ->
   seed_rand (Some z)
     = ([random_seed z; np_random_seed z], Raise NP_SEED_ERROR)).
Proof.
  unfold seed_rand, truthy, np_random_seed_result.
  split; [reflexivity |].
  destruct (Z.eqb_spec z 0) as [-> | Hne]; cbn [negb fst].
  - split; [split; reflexivity |]. split; [reflexivity |].
    split; intros H; lia.
  - split; [split; [discriminate | contradiction] |].
    split; [contradiction |]. split; intros H.
    + destruct (Z.leb_spec 0 z); [| lia].
      destruct (Z.ltb_spec z (2 ^ 32)); [reflexivity | lia].
    + destruct (Z.leb_spec 0 z); cbn [andb]; [| reflexivity].
      destruct (Z.ltb_spec z (2 ^ 32)); [lia | reflexivity].
Qed.

Lemma seed_rand_skips_zero_witness :
  seed_rand (Some 0%Z) = ([], Ok tt) /\
  seed_rand (Some 42%Z) = ([random_seed 42; np_random_seed 42], Ok tt) /\
  seed_rand (Some (2 ^ 32)%Z)
    = ([random_seed (2 ^ 32); np_random_seed (2 ^ 32)], Raise NP_SEED_ERROR).
Proof.
  destruct (seed_rand_skips_zero 0) as (_ & _ & H0 & _).
  destruct (seed_rand_skips_zero 42) as (_ & _ & _ & H1 & _).
  destruct (seed_rand_skips_zero (2 ^ 32)) as (_ & _ & _ & _ & H2).
  split; [apply H0; reflexivity |]. split; [apply H1; lia | apply H2; lia].
Defined.

Lemma warn_line_newline (s : pystr) : warn_line s [10%N] = warn_text s.
Proof. reflexivity. Qed.

(** X16.  The lines of [info], [warn] and [error] never coincide, whatever
    the messages and the line ends, and with the line end fixed each of
    the four printers prints different texts for different messages. *)
Theorem printed_lines_are_distinct (s s' e e' : pystr) :
  info_line s e <> warn_line s' e' /\
  info_line s e <> error_line s' e' /\
  warn_line s e <> error_line s' e' /\
  (info_line s e = info_line s' e -> s = s') /\
  (warn_line s e = warn_line s' e -> s = s') /\
  (error_line s e = error_line s' e -> s = s') /\
  (bold_line s e = bold_line s' e -> s = s').
Proof.
  unfold info_line, warn_line, error_line, bold_line.
  repeat split; try (cbn; discriminate); intros H.
  - do 4 apply app_inv_head in H. exact (app_inv_tail _ _ _ H).
  - do 4 apply app_inv_head in H. exact (app_inv_tail _ _ _ H).
  - do 4 apply app_inv_head in H. exact (app_inv_tail _ _ _ H).
  - apply app_inv_head in H. rewrite !app_assoc in H.
    apply app_inv_tail in H. exact (app_inv_tail _ _ _ H).
Qed.

Lemma printed_lines_are_distinct_witness :
  info_line (lit "a") [10%N] <> warn_line (lit "b") [] /\
  lit "a" = lit "a".
Proof.
  destruct (printed_lines_are_distinct (lit "a") (lit "b") [10%N] [])
    as (H1 & _).
  destruct (printed_lines_are_distinct (lit "a") (lit "a") [10%N] [10%N])
    as (_ & _ & _ & _ & H2 & _).
  split; [exact H1 | exact (H2 eq_refl)].
Defined.

End HelperFacts.
